(** * A shallow embedding of the process runner, the output-line classifiers,
    the batch and playlist workers and the configuration store of
    [app/youtube_downloader.py]. *)

From Stdlib Require Import ZArith QArith List String Ascii Bool Lia DecimalString.
Import ListNotations.
Open Scope string_scope.
Set Warnings "-register-all".

(* ------------------------------------------------------------------ *)
(** ** Python string helpers (ASCII lines) *)

Module Py.

(** [s.startswith(p)] *)
Fixpoint startswith (s p : string) : bool :=
  match p, s with
  | EmptyString, _ => true
  | String c p', String d s' => Ascii.eqb c d && startswith s' p'
  | String _ _, EmptyString => false
  end.

(** [p in s] for strings *)
Fixpoint contains (p s : string) : bool :=
  startswith s p ||
  match s with
  | EmptyString => false
  | String _ s' => contains p s'
  end.

(** [s.split(sep, 1)[1]]: the text after the first occurrence of [sep],
    [None] when [sep] does not occur (an [IndexError] in Python). *)
Fixpoint after_first (sep s : string) : option string :=
  if startswith s sep then Some (substring (String.length sep) (String.length s) s)
  else match s with
       | EmptyString => None
       | String _ s' => after_first sep s'
       end.

(** The characters [str.isspace] accepts in the ASCII range. *)
Definition is_space (c : ascii) : bool :=
  let n := nat_of_ascii c in
  ((9 <=? n)%nat && (n <=? 13)%nat) || ((28 <=? n)%nat && (n <=? 32)%nat).

Fixpoint lstrip (s : string) : string :=
  match s with
  | String c s' => if is_space c then lstrip s' else s
  | EmptyString => EmptyString
  end.

(** [s.rstrip()] *)
Fixpoint rstrip (s : string) : string :=
  match s with
  | EmptyString => EmptyString
  | String c s' =>
      match rstrip s' with
      | EmptyString => if is_space c then EmptyString else String c EmptyString
      | r => String c r
      end
  end.

(** [s.strip()] *)
Definition strip (s : string) : string := rstrip (lstrip s).

(** [s.lower()] on ASCII *)
Fixpoint lower (s : string) : string :=
  match s with
  | EmptyString => EmptyString
  | String c s' =>
      let n := nat_of_ascii c in
      String (if (65 <=? n)%nat && (n <=? 90)%nat then ascii_of_nat (n + 32)%nat else c) (lower s')
  end.

(** [str(n)] for a natural number *)
Definition nat_str (n : nat) : string :=
  NilEmpty.string_of_uint (Nat.to_uint n).

End Py.

(* ------------------------------------------------------------------ *)
(** ** [DownloadManager]: the process runner

    The child process is described by the lines it prints (an item may
    instead make [readline] raise, e.g. a decoding error of the text-mode
    pipe) and by the exit code it reports when it ends on its own.  The
    remaining output of the running child is the argument of the read loop;
    a killed child has closed its pipe and reports [kill_code], the exit
    status the platform gives a forcibly killed process (1 for
    [TerminateProcess] on Windows, -9 for SIGKILL on POSIX). *)

Module Runner.

Inductive out_item := Line (s : string) | ReadError (e : string).

Inductive pstate := Running | Killed.

Record Proc := mkProc { p_code : Z; p_state : pstate }.

(** [self.process] and [self.cancelled] *)
Record Mgr := mkMgr { process : option Proc; cancelled : bool }.

(** What [subprocess.Popen] does: spawn a child or raise. *)
Inductive Spawn := SpawnOk (code : Z) (out : list out_item) | SpawnFail (e : string).

(** The points of [start] at which another thread may run [cancel]:
    just before the [if self.cancelled] test of iteration [k], while the
    worker is inside the [readline] of iteration [k], and after the loop
    has been left but before [start] returns. *)
Inductive point := AtCheck (k : nat) | InRead (k : nat) | AfterLoop.

(** Result of the body of the [try]: a [return] or a raised exception. *)
Inductive outcome := Ret (rc : Z) (msg : string) | Exn (e : string).

Definition NoneKill := "'NoneType' object has no attribute 'kill'".

Section Start.

Variable kill_code : Z.
(** [sched p = true] when [cancel] runs at point [p] of this run. *)
Variable sched : point -> bool.
(** [line_callback]: [None] when absent; a callback returns [Some e] when
    it raises [e]. *)
Variable line_callback : option (string -> option string).

(** [Popen.kill]: a child that has already exited is left alone. *)
Definition kill (outs : list out_item) (p : Proc) : Proc :=
  match p_state p, outs with
  | Running, [] => p
  | _, _ => mkProc (p_code p) Killed
  end.

(** [Popen.poll] *)
Definition poll (outs : list out_item) (p : Proc) : option Z :=
  match p_state p, outs with
  | Killed, _ => Some kill_code
  | Running, [] => Some (p_code p)
  | Running, _ :: _ => None
  end.

(** [DownloadManager.cancel] (the [try]/[except] around [kill] swallows
    nothing here: our [kill] does not raise). *)
Definition cancel (outs : list out_item) (m : Mgr) : Mgr :=
  mkMgr (option_map (kill outs) (process m)) true.

Definition cancel_at (pt : point) (outs : list out_item) (m : Mgr) : Mgr :=
  if sched pt then cancel outs m else m.

(** After [break]: [rc = self.process.poll()]; [return rc, "Done"]. *)
Definition after_loop (outs : list out_item) (m : Mgr) : outcome * Mgr :=
  let m := cancel_at AfterLoop outs m in
  match process m with
  | None => (Exn "'NoneType' object has no attribute 'poll'", m)
  | Some p =>
      match poll outs p with
      | Some rc => (Ret rc "Done", m)
      | None => (Exn "unreachable: poll after EOF", m)
      end
  end.

(** Dispatch a line read: [if line: if line_callback: line_callback(line)]. *)
Definition dispatch (line : string) : option string :=
  match line, line_callback with
  | EmptyString, _ => None
  | _, None => None
  | _, Some cb => cb line
  end.

(** The [while True] loop of [start], iteration [k] on the remaining output
    [outs] of the child. *)
Fixpoint loop (k : nat) (outs : list out_item) (m : Mgr) : outcome * Mgr :=
  let m := cancel_at (AtCheck k) outs m in
  if cancelled m then
    match process m with
    | Some p => (Ret (-1) "Cancelled", mkMgr (Some (kill outs p)) (cancelled m))
    | None => (Exn NoneKill, m)
    end
  else
    let m := cancel_at (InRead k) outs m in
    match process m with
    | None => (Exn "'NoneType' object has no attribute 'stdout'", m)
    | Some p =>
        match p_state p with
        | Killed =>
            (* the pipe is closed: [readline] returns "" and [poll] is set *)
            after_loop outs m
        | Running =>
            match outs with
            | [] => after_loop [] m
            | ReadError e :: _ => (Exn e, m)
            | Line line :: rest =>
                match line, rest with
                | EmptyString, [] => after_loop [] m
                | _, _ =>
                    match dispatch line with
                    | Some e => (Exn e, m)
                    | None => loop (S k) rest m
                    end
                end
            end
        end
    end.

(** [DownloadManager.start(cmd, line_callback)]: the returned pair and the
    manager after the [finally] clause. *)
Definition start (m0 : Mgr) (spawn : Spawn) : (Z * string) * Mgr :=
  let m := mkMgr (process m0) false in
  let '(o, m') :=
    match spawn with
    | SpawnFail e => (Exn e, m)
    | SpawnOk code outs => loop 0 outs (mkMgr (Some (mkProc code Running)) false)
    end in
  let res := match o with Ret rc msg => (rc, msg) | Exn e => (1%Z, e) end in
  (res, mkMgr None (cancelled m')).

End Start.

End Runner.

(* ------------------------------------------------------------------ *)
(** ** [PERC_RE = re.compile(r"(\d{1,3}\.\d+)%")] and [PERC_RE.search] *)

Module Perc.

Definition is_digit (c : ascii) : bool :=
  let n := nat_of_ascii c in (48 <=? n)%nat && (n <=? 57)%nat.

(** Number of leading digits of [s]. *)
Fixpoint digit_run (s : string) : nat :=
  match s with
  | String c s' => if is_digit c then S (digit_run s') else O
  | EmptyString => O
  end.

Fixpoint all_digits (s : string) : bool :=
  match s with
  | EmptyString => true
  | String c s' => is_digit c && all_digits s'
  end.

(** The text of group 1 is one to three digits, a dot, and digits. *)
Definition decimal_shape (g : string) : Prop :=
  exists ip fp, g = (ip ++ String "." fp)%string /\
    all_digits ip = true /\ all_digits fp = true /\
    (1 <= String.length ip <= 3)%nat /\ (1 <= String.length fp)%nat.

(** [n; n-1; ...; 1]: the repetition counts a greedy quantifier tries, in order. *)
Fixpoint countdown (n : nat) : list nat :=
  match n with O => [] | S n' => n :: countdown n' end.

Fixpoint first_some {A B} (f : A -> option B) (l : list A) : option B :=
  match l with
  | [] => None
  | x :: l' => match f x with Some b => Some b | None => first_some f l' end
  end.

(** [s[n:]] *)
Fixpoint drop (n : nat) (s : string) : string :=
  match n, s with
  | O, _ => s
  | S n', String _ s' => drop n' s'
  | S _, EmptyString => EmptyString
  end.

(** [\d+%] at the start of [s]: greedy [\d+] backtracks from the longest
    digit run down to one digit; the result is the length of the digits. *)
Definition match_frac (s : string) : option nat :=
  first_some (fun n => match get n s with
                       | Some "%"%char => Some n
                       | _ => None
                       end) (countdown (digit_run s)).

(** The pattern anchored at the start of [s]; [Some g] with [g] the text of
    group 1.  [\d{1,3}] tries 3, 2, then 1 digits. *)
Definition match_at (s : string) : option string :=
  first_some (fun c =>
    if (c <=? digit_run s)%nat then
      match get c s with
      | Some "."%char =>
          match match_frac (drop (S c) s) with
          | Some n => Some (substring 0 (c + 1 + n) s)
          | None => None
          end
      | _ => None
      end
    else None) [3; 2; 1]%nat.

(** [PERC_RE.search(s)]: the leftmost starting position that matches. *)
Fixpoint search (s : string) : option string :=
  match match_at s with
  | Some g => Some g
  | None => match s with
            | EmptyString => None
            | String _ s' => search s'
            end
  end.

(** Digits as a number. *)
Fixpoint digits_val_acc (acc : Z) (s : string) : Z :=
  match s with
  | EmptyString => acc
  | String c s' => digits_val_acc (10 * acc + Z.of_nat (nat_of_ascii c - 48)) s'
  end.

(** [float(g)] for a group [ddd.ddd], as the exact rational the decimal
    denotes (binary rounding of the float is not modelled). *)
Definition float_of (g : string) : Q :=
  let i := digit_run g in
  let ip := substring 0 i g in
  let fp := drop (S i) g in
  Qmake (digits_val_acc 0 (ip ++ fp))
        (Pos.of_nat (Nat.pow 10 (String.length fp))).

(** [f"{x:.0f}"] for [x >= 0]: round half to even, then [str]. *)
Definition format_0f (x : Q) : string :=
  let n := Qnum x in
  let d := Zpos (Qden x) in
  let fl := Z.div n d in
  let r := Z.modulo n d in
  let v := match Z.compare (2 * r) d with
           | Lt => fl
           | Gt => fl + 1
           | Eq => if Z.even fl then fl else fl + 1
           end%Z in
  NilEmpty.string_of_int (Z.to_int v).

End Perc.

(* ------------------------------------------------------------------ *)
(** ** [os.path] on Windows ([ntpath]) *)

Module NtPath.

Definition is_sep (c : ascii) : bool := Ascii.eqb c "\"%char || Ascii.eqb c "/"%char.

(** [s.rfind(c)], [-1] when absent. *)
Fixpoint rfind_by (f : ascii -> bool) (i : Z) (s : string) : Z :=
  match s with
  | EmptyString => -1
  | String c s' =>
      let r := rfind_by f (i + 1) s' in
      if (r =? -1)%Z then (if f c then i else -1) else r
  end.

Definition rfind (f : ascii -> bool) (s : string) : Z := rfind_by f 0 s.

Definition char_at (i : Z) (s : string) : option ascii := get (Z.to_nat i) s.

(** No character of [s] satisfies [f]. *)
Fixpoint none_of (f : ascii -> bool) (s : string) : bool :=
  match s with
  | EmptyString => true
  | String c s' => negb (f c) && none_of f s'
  end.

(** [genericpath._splitext(p, '\\', '/', '.')] *)
Definition splitext (p : string) : string * string :=
  let sepIndex := Z.max (rfind (fun c => Ascii.eqb c "\"%char) p)
                        (rfind (fun c => Ascii.eqb c "/"%char) p) in
  let dotIndex := rfind (fun c => Ascii.eqb c "."%char) p in
  let fix skip (fuel : nat) (filenameIndex : Z) : string * string :=
    match fuel with
    | O => (p, "")
    | S fuel' =>
        if (filenameIndex <? dotIndex)%Z then
          match char_at filenameIndex p with
          | Some "."%char => skip fuel' (filenameIndex + 1)%Z
          | _ => (substring 0 (Z.to_nat dotIndex) p,
                  Perc.drop (Z.to_nat dotIndex) p)
          end
        else (p, "")
    end in
  if (sepIndex <? dotIndex)%Z then skip (String.length p) (sepIndex + 1)%Z
  else (p, "").

(** [ntpath.basename(p)]: the tail after the last separator once a
    drive [X:] has been split off (the drive of a bare UNC share root is
    not modelled). *)
Definition basename (p : string) : string :=
  let p' := match p with
            | String c (String c2 rest) =>
                if Ascii.eqb c2 ":"%char && negb (is_sep c) then rest else p
            | _ => p
            end in
  Perc.drop (Z.to_nat (rfind is_sep p' + 1)) p'.

End NtPath.

(* ------------------------------------------------------------------ *)
(** ** The [line_cb] closures of the single and batch workers

    Each closure is a function of its [nonlocal] variable and the line,
    returning the new value of the variable and the [enqueue_ui] calls it
    makes, in order. *)

Module Classify.

Inductive ui :=
  | SetProgress (q : Q)            (* progress_bar.set(q) *)
  | SetPctLabel (s : string)       (* pct_label.configure(text=s) *)
  | SetTitle (s : string)          (* lbl_title.configure(text=s) *)
  | SetStatus (s : string)         (* lbl_status.configure(text=s) *)
  | RowStatus (s color : string)   (* row.set_status(s, color) *)
  | AppendLog (s : string).        (* self._append_log(s) *)

Definition audio_exts := [".m4a"; ".mp3"; ".opus"; ".aac"; ".wav"].
Definition video_exts := [".mp4"; ".webm"; ".mkv"; ".avi"; ".mov"].

Definition mem (s : string) (l : list string) : bool :=
  existsb (String.eqb s) l.

(** The value a progress bar shows after a sequence of UI updates, if any. *)
Fixpoint last_progress (l : list ui) : option Q :=
  match l with
  | [] => None
  | SetProgress q :: l' => match last_progress l' with Some q' => Some q' | None => Some q end
  | _ :: l' => last_progress l'
  end.

(** [line.split("Destination:", 1)[1].strip()] *)
Definition dest_fname (line : string) : option string :=
  option_map Py.strip (Py.after_first "Destination:" line).

(** [os.path.splitext(fname)[1].lower()] *)
Definition ext_of (fname : string) : string := Py.lower (snd (NtPath.splitext fname)).

(** [os.path.splitext(os.path.basename(fname))[0]] *)
Definition title_of (fname : string) : string := fst (NtPath.splitext (NtPath.basename fname)).

(** [_single_download_worker.line_cb]; the state is [current_type]. *)
Definition single_line_cb (current_type line : string) : string * list ui :=
  (* 1. Parse Progress *)
  let a1 := match Perc.search line with
            | Some g => [SetProgress (Perc.float_of g / 100); SetPctLabel (g ++ "%")]
            | None => []
            end in
  (* 2. Parse Title *)
  let '(ct, a2) :=
    if Py.contains "[download] Destination:" line then
      match dest_fname line with
      | Some fname =>
          let ext := ext_of fname in
          let '(ct, st) :=
            if mem ext audio_exts then ("audio", [SetStatus "Downloading Audio..."])
            else if mem ext video_exts then ("video", [SetStatus "Downloading Video..."])
            else (current_type, []) in
          (ct, (st ++ [SetTitle (title_of fname)])%list)
      | None => (current_type, [])
      end
    else if Py.contains "[download]" line && Py.contains "has already been downloaded" line then
      (current_type, [SetTitle "Already downloaded"; SetProgress 1; SetPctLabel "100%"])
    else (current_type, []) in
  (* 3. Parse Status *)
  let a3 := if Py.contains "[Merger]" line then
              [SetStatus "Merging Video & Audio..."; SetProgress 1; SetPctLabel "100%"]
            else if Py.contains "[ExtractAudio]" line then [SetStatus "Extracting Audio..."]
            else [] in
  (ct, (a1 ++ a2 ++ a3 ++ [AppendLog (Py.strip line)])%list).

(** [_batch_worker.line_cb]; the state is [current_stage]. *)
Definition batch_line_cb (current_stage line : string) : string * list ui :=
  let pct_and_log (stage : string) : list ui :=
    app match Perc.search line with
    | Some g =>
        [RowStatus (stage ++ ": " ++ Perc.format_0f (Perc.float_of g) ++ "%") "accent"]
    | None => []
    end [AppendLog (Py.strip line)] in
  if Py.contains "[download] Destination:" line then
    let stage :=
      match dest_fname line with
      | Some fname =>
          let ext := ext_of fname in
          if mem ext video_exts then "Video"
          else if mem ext audio_exts then "Audio"
          else current_stage
      | None => current_stage
      end in
    (stage, pct_and_log stage)
  else if Py.contains "[Merger]" line then
    ("Merging", [RowStatus "Merging..." "accent"])
  else if Py.contains "has already been downloaded" line then
    ("Exists", [RowStatus "Exists" "success"])
  else (current_stage, pct_and_log current_stage).

End Classify.

(* ------------------------------------------------------------------ *)
(** ** [DownloaderApp._batch_worker]: the sequential download loop

    From the [for idx, row in enumerate(to_download, start=1)] loop on.
    Each selected row brings the behaviour of its child process and the
    points at which the user presses Cancel during its run; [pre] says that
    Cancel is pressed after the loop's [if self.batch_mgr.cancelled] test but
    before [self.batch_mgr.start] is entered. *)

Module Batch.

Import Runner.

Record item := mkItem {
  ie_pre : bool;
  ie_sched : point -> bool;
  ie_spawn : Spawn }.

(** One dispatched row: its index, the [rc] of its run, the row status the
    worker sets from [rc], and [self.batch_mgr.cancelled] when [start]
    returned. *)
Record run := mkRun {
  r_idx : nat;
  r_rc : Z;
  r_status : string;
  r_cancelled_after : bool }.

Section Loop.

Variable kill_code : Z.
Variable cb : option (string -> option string).

Fixpoint batch_loop (idx : nat) (rows : list item) (m : Mgr) (completed : nat)
  : list run * nat * Mgr :=
  match rows with
  | [] => ([], completed, m)
  | r :: rest =>
      if cancelled m then ([], completed, m)
      else
        let m := if ie_pre r then mkMgr (process m) true else m in
        let '((rc, _), m') := start kill_code (ie_sched r) cb m (ie_spawn r) in
        if (rc =? 0)%Z then
          let '(runs, c, mf) := batch_loop (S idx) rest m' (S completed) in
          (mkRun idx rc "Done" (cancelled m') :: runs, c, mf)
        else if (rc =? -1)%Z then
          ([mkRun idx rc "Cancelled" (cancelled m')], completed, m')
        else
          let '(runs, c, mf) := batch_loop (S idx) rest m' completed in
          (mkRun idx rc "Failed" (cancelled m') :: runs, c, mf)
  end.

(** The loop as [_batch_worker] runs it, on [self.batch_mgr] as the previous
    run left it. *)
Definition batch_worker (rows : list item) (m : Mgr) : list run * nat * Mgr :=
  batch_loop 1 rows m 0.

(** How a list of runs lines up with the rows (a reading used by the
    statements below, not code of the source): the k-th run is the k-th
    row, started while the manager was not cancelled, on the manager the
    previous run left (reset first when the row's [pre] flag is set); its
    [rc] and cancel flag are the ones [start] returned. *)
Fixpoint runs_follow_rows (rows : list item) (m : Mgr) (runs : list run) : Prop :=
  match runs, rows with
  | [], _ => True
  | x :: runs', r :: rest =>
      cancelled m = false /\
      exists msg m',
        start kill_code (ie_sched r) cb (if ie_pre r then mkMgr (process m) true else m)
          (ie_spawn r) = ((r_rc x, msg), m') /\
        r_cancelled_after x = cancelled m' /\
        runs_follow_rows rest m' runs'
  | _ :: _, [] => False
  end.

End Loop.

End Batch.

(* ------------------------------------------------------------------ *)
(** ** JSON values as [json.load] returns them *)

Module Json.

Inductive json :=
  | JNull
  | JBool (b : bool)
  | JNum (z : Z)
  | JStr (s : string)
  | JArr (l : list json)
  | JObj (kvs : list (string * json)).

(** File contents: not JSON (or unreadable), or the value [json.load] returns. *)
Inductive doc := Garbage | Doc (j : json).

Fixpoint assoc (k : string) (kvs : list (string * json)) : option json :=
  match kvs with
  | [] => None
  | (k', v) :: kvs' => if String.eqb k k' then Some v else assoc k kvs'
  end.

Definition has_key (k : string) (kvs : list (string * json)) : bool :=
  match assoc k kvs with Some _ => true | None => false end.

(** [x == k] for a string [k] *)
Definition is_str (k : string) (x : json) : bool :=
  match x with JStr s => String.eqb s k | _ => false end.

(** [len(x)], [None] for a [TypeError] *)
Definition py_len (x : json) : option nat :=
  match x with
  | JStr s => Some (String.length s)
  | JArr l => Some (List.length l)
  | JObj kvs => Some (List.length kvs)
  | _ => None
  end.

End Json.

(* ------------------------------------------------------------------ *)
(** ** [DownloaderApp._playlist_worker] *)

Module Playlist.

Import Json.

Inductive event :=
  | ErrorBox (s : string)        (* messagebox.showerror *)
  | Log (s : string)             (* enqueue_ui(self._append_log, s) *)
  | RunInfo                      (* run_process_stream(cmd_info) *)
  | RunDownload.                 (* self.playlist_mgr.start(cmd_dl, ...) *)

(** [j = json.loads(out); entries = j.get("entries", []); total = len(entries)],
    [None] when any of it raises. *)
Definition parse_total (out : doc) : option nat :=
  match out with
  | Garbage => None
  | Doc (JObj kvs) =>
      py_len (match assoc "entries" kvs with Some e => e | None => JArr [] end)
  | Doc _ => None       (* AttributeError: no [.get] *)
  end.

Definition total_label (total : option nat) : string :=
  match total with
  | Some (S _ as n) => Py.nat_str n
  | _ => "unknown"
  end.

(** The worker, given the URL field, whether both tools exist, the result
    of the metadata fetch and the [rc] of the download run. *)
Definition playlist_worker (url : string) (tools_ok : bool)
    (info_rc : Z) (info_out : doc) (dl_rc : Z) : list event :=
  if String.eqb (Py.strip url) "" then [ErrorBox "Please paste a playlist URL."]
  else if negb tools_ok then [ErrorBox "yt-dlp.exe or ffmpeg.exe missing."]
  else
    [Log "Fetching playlist info..."; RunInfo] ++
    if negb (info_rc =? 0)%Z then [Log "Failed to fetch playlist info."]
    else
      let total := parse_total info_out in
      [Log ("Starting playlist download (approx. " ++ total_label total ++ " items)...");
       RunDownload;
       Log (if (dl_rc =? 0)%Z then "Playlist download completed."
            else if (dl_rc =? -1)%Z then "Playlist download cancelled."
            else "Playlist download failed.")].

End Playlist.

(* ------------------------------------------------------------------ *)
(** ** [load_config] and [save_config]

    [DEFAULT_DOWNLOAD] and [ICON_PATH] depend on the machine and are
    parameters.  The configuration file is absent, or holds text that
    [json.load] rejects, or holds a JSON document. *)

Module Config.

Import Json.

Inductive file := Absent | Present (d : doc).

Definition DEFAULT_CONFIG (default_download icon_path : string) : list (string * json) :=
  [("download_folder", JStr default_download);
   ("theme", JStr "dark");
   ("auto_open_folder", JBool true);
   ("auto_update_ytdlp", JBool true);
   ("audio_format", JStr "m4a");
   ("last_checked", JNull);
   ("app_icon", JStr icon_path)].

(** [if k not in cfg: cfg[k] = v]; [None] when it raises [TypeError]. *)
Definition fill_key (k : string) (v : json) (cfg : json) : option json :=
  match cfg with
  | JObj kvs => if has_key k kvs then Some cfg else Some (JObj (kvs ++ [(k, v)]))
  | JArr l => if existsb (is_str k) l then Some cfg else None
  | JStr s => if Py.contains k s then Some cfg else None
  | _ => None
  end.

Fixpoint fill (defaults : list (string * json)) (cfg : json) : option json :=
  match defaults with
  | [] => Some cfg
  | (k, v) :: ds => match fill_key k v cfg with
                    | Some cfg' => fill ds cfg'
                    | None => None
                    end
  end.

Definition load_config (dd ip : string) (f : file) : json :=
  match f with
  | Present (Doc cfg) =>
      match fill (DEFAULT_CONFIG dd ip) cfg with
      | Some cfg' => cfg'
      | None => JObj (DEFAULT_CONFIG dd ip)     (* except Exception: pass *)
      end
  | _ => JObj (DEFAULT_CONFIG dd ip)
  end.

(** [json.dump(cfg, f)]: the file then holds the document [cfg]. *)
Definition save_config (cfg : json) : file := Present (Doc cfg).

End Config.

(* ------------------------------------------------------------------ *)
(** ** More of [str]: [splitlines], [split], [join] and [int] *)

Module PyStr.

(** The line boundaries of [str.splitlines] in the ASCII range:
    \n, \r, \v, \f, \x1c, \x1d, \x1e ([\r\n] counts as one). *)
Definition is_linebreak (c : ascii) : bool :=
  existsb (Nat.eqb (nat_of_ascii c)) [10; 13; 11; 12; 28; 29; 30]%nat.

Fixpoint splitlines_go (s cur : string) : list string :=
  match s with
  | EmptyString => if String.eqb cur "" then [] else [cur]
  | String c s' =>
      if is_linebreak c then
        cur :: (if Ascii.eqb c "013"%char then
                  match s' with
                  | String d s'' =>
                      if Ascii.eqb d "010"%char then splitlines_go s'' ""
                      else splitlines_go s' ""
                  | EmptyString => splitlines_go s' ""
                  end
                else splitlines_go s' "")
      else splitlines_go s' (cur ++ String c "")
  end.

(** [s.splitlines()] *)
Definition splitlines (s : string) : list string := splitlines_go s "".

(** [sep.join(l)] *)
Fixpoint join (sep : string) (l : list string) : string :=
  match l with
  | [] => ""
  | [x] => x
  | x :: l' => x ++ sep ++ join sep l'
  end.

(** [s.split(sep)] for a non-empty [sep]; [fuel] bounds the scan. *)
Fixpoint split_go (fuel : nat) (sep s acc : string) : list string :=
  match fuel with
  | O => [acc ++ s]
  | S f =>
      if Py.startswith s sep then acc :: split_go f sep (Perc.drop (String.length sep) s) ""
      else match s with
           | EmptyString => [acc]
           | String c s' => split_go f sep s' (acc ++ String c "")
           end
  end.

Definition split (sep s : string) : list string := split_go (S (String.length s)) sep s "".

(** Decimal digits, with single underscores allowed between digits. *)
Fixpoint digits_us (s : string) (acc : Z) (prev_us : bool) : option Z :=
  match s with
  | EmptyString => if prev_us then None else Some acc
  | String c s' =>
      if Perc.is_digit c then
        digits_us s' (10 * acc + Z.of_nat (nat_of_ascii c - 48)) false
      else if Ascii.eqb c "_"%char && negb prev_us then digits_us s' acc true
      else None
  end.

(** [int(s)] on a string without surrounding white space; [None] for a
    [ValueError]. *)
Definition py_int (s : string) : option Z :=
  let '(neg, body) :=
    match s with
    | String c b => if Ascii.eqb c "-"%char then (true, b)
                    else if Ascii.eqb c "+"%char then (false, b) else (false, s)
    | EmptyString => (false, s)
    end in
  match body with
  | String c b' =>
      if Perc.is_digit c then
        option_map (fun n => if neg then Z.opp n else n)
                   (digits_us b' (Z.of_nat (nat_of_ascii c - 48)) false)
      else None
  | EmptyString => None
  end.

(** [str(n)] for an [int] *)
Definition z_str (z : Z) : string := NilEmpty.string_of_int (Z.to_int z).

End PyStr.

(* ------------------------------------------------------------------ *)
(** ** The batch list: [BatchRow.set_title], [add_batch_links],
    [remove_batch_row], [_update_batch_count] *)

Module Rows.

(** [BatchRow.set_title]: the stored [title_val] and the label text. *)
Definition set_title (title : string) : string * string :=
  (title, if (60 <? String.length title)%nat then substring 0 57 title ++ "..." else title).

(** [add_batch_links] on the text box content [content] and the current
    rows (their URLs): whether the box is cleared, the rows afterwards,
    and the URLs of the rows added (handed to [_batch_metadata_worker]). *)
Definition add_batch_links (content : string) (items : list string)
  : bool * list string * list string :=
  let text := Py.strip content in
  if String.eqb text "" then (false, items, [])
  else
    let new_urls := map Py.strip
                      (filter (fun l => negb (String.eqb (Py.strip l) "")) (PyStr.splitlines text)) in
    match new_urls with
    | [] => (true, items, [])
    | _ => (true, (items ++ new_urls)%list, new_urls)
    end.

Fixpoint remove_first (x : nat) (l : list nat) : list nat :=
  match l with
  | [] => []
  | y :: l' => if Nat.eqb x y then l' else y :: remove_first x l'
  end.

(** [remove_batch_row]: rows are objects, compared by identity (a [nat]). *)
Definition remove_batch_row (row : nat) (items : list nat) : list nat :=
  if existsb (Nat.eqb row) items then remove_first row items else items.

(** [_update_batch_count] *)
Definition count_label {A} (items : list A) : string :=
  Py.nat_str (List.length items) ++ " items".

End Rows.

(* ------------------------------------------------------------------ *)
(** ** [_playlist_worker.line_cb] *)

Module PlLine.

Import Classify.

(** [current_item] and [total_items] *)
Record plstate := mkPl { cur_item : Z; tot_items : Z }.

Inductive plev :=
  | PlTitle (s : string)        (* lbl_pl_title.configure(text=s) *)
  | PlProgress (q : Q)          (* playlist_progress.set(q) *)
  | PlPct (s : string)          (* playlist_pct_label.configure(text=s) *)
  | PlLog (s : string).         (* self._append_log(s) *)

(** [total_items = total if total else 1; current_item = 1] *)
Definition pl_init (total : option nat) : plstate :=
  mkPl 1 (match total with Some (S _ as n) => Z.of_nat n | _ => 1%Z end).

(** The [try] block on "Downloading video X of Y"; any exception leaves
    the counters as they were. *)
Definition count_update (line : string) (st : plstate) : plstate :=
  if Py.contains "Downloading video" line && Py.contains "of" line then
    match nth_error (PyStr.split "Downloading video" line) 1 with
    | Some seg =>
        let parts := PyStr.split "of" (Py.strip seg) in
        match nth_error parts 0, nth_error parts 1 with
        | Some p0, Some p1 =>
            match PyStr.py_int (Py.strip p0), PyStr.py_int (Py.strip p1) with
            | Some curr, Some tot => mkPl curr tot
            | _, _ => st
            end
        | _, _ => st
        end
    | None => st
    end
  else st.

Definition pl_line_cb (st : plstate) (line : string) : plstate * list plev :=
  let st := count_update line st in
  let a := if Py.contains "[download] Destination:" line then
             match dest_fname line with
             | Some fname =>
                 [PlTitle ("[" ++ PyStr.z_str (cur_item st) ++ "/" ++ PyStr.z_str (tot_items st)
                           ++ "] " ++ title_of fname)]
             | None => []
             end
           else [] in
  let b := match Perc.search line with
           | Some g => [PlProgress (Perc.float_of g / 100); PlPct (g ++ "%")]
           | None => [PlLog ("[playlist] " ++ Py.strip line)]
           end in
  (st, (a ++ b)%list).

End PlLine.

(* ------------------------------------------------------------------ *)
(** ** [_batch_metadata_worker]

    For each row: whether its widget still exists, and what
    [subprocess.run] gave: [None] when it raised, else the return code and
    the captured standard output.  [file_exists] is [os.path.exists]. *)

Module Meta.

Inductive meta_ev :=
  | MTitle (s : string)               (* row.set_title(s) *)
  | MStatus (s color : string)        (* row.set_status(s, color) *)
  | MUncheck.                         (* r.chk_var.set(False) *)

Record meta_row := mkMeta { alive : bool; result : option (Z * string) }.

(** [s.split(sep, 1)] when [sep] occurs in [s]. *)
Fixpoint split1 (sep s : string) : option (string * string) :=
  if Py.startswith s sep then Some ("", Perc.drop (String.length sep) s)
  else match s with
       | EmptyString => None
       | String c s' => option_map (fun p => (String c (fst p), snd p)) (split1 sep s')
       end.

Section Worker.

Variable file_exists : string -> bool.

Definition meta_one (r : meta_row) : list meta_ev :=
  if negb (alive r) then []
  else match result r with
       | None => [MStatus "Error" "error"]
       | Some (rc, out) =>
           if (rc =? 0)%Z then
             let output := Py.strip out in
             if Py.contains "|" output then
               match split1 "|" output with
               | Some (t, f) =>
                   let title := Py.strip t in
                   let filename := Py.strip f in
                   MTitle title ::
                   (if file_exists filename then [MStatus "Exists" "success"; MUncheck]
                    else if file_exists (filename ++ ".part") || file_exists (filename ++ ".ytdl")
                    then [MStatus "Incomplete" "accent"]
                    else [MStatus "Ready" "text_sub"])
               | None => []
               end
             else [MTitle output; MStatus "Ready" "text_sub"]
           else [MStatus "Error" "error"]
       end.

(** The events of each row, in order. *)
Definition meta_worker (rows : list meta_row) : list (list meta_ev) := map meta_one rows.

End Worker.

End Meta.

(* ------------------------------------------------------------------ *)
(** ** [run_process_stream]

    The child as for [DownloadManager]: its output items and exit code.
    The result, and the lines handed to [line_callback] in order (the
    callback's exceptions are caught and dropped). *)

Module Stream.

Import Runner.

Fixpoint stream_loop (code : Z) (outs : list out_item) (combined : list string)
  : outcome * list string :=
  match outs with
  | [] => (Ret code (String.concat "" combined), [])
  | ReadError e :: _ => (Exn e, [])
  | Line l :: rest =>
      match l, rest with
      | EmptyString, [] => (Ret code (String.concat "" combined), [])
      | EmptyString, _ => stream_loop code rest combined
      | _, _ => let '(o, calls) := stream_loop code rest (combined ++ [l]) in (o, l :: calls)
      end
  end.

Definition run_process_stream (spawn : Spawn) : outcome * list string :=
  match spawn with
  | SpawnFail e => (Exn e, [])
  | SpawnOk code outs => stream_loop code outs []
  end.

End Stream.

(* ------------------------------------------------------------------ *)
(** ** The download workers around their runs

    The global [cfg] is a JSON value (a dict when [load_config] read one);
    [DEFAULT_DOWNLOAD] is a parameter. *)

Module Workers.

Import Json.

(** [d[k] = v] on a dict: the value of an existing key is replaced in
    place, a new key goes last. *)
Fixpoint setitem (k : string) (v : json) (kvs : list (string * json)) : list (string * json) :=
  match kvs with
  | [] => [(k, v)]
  | (k', v') :: kvs' => if String.eqb k k' then (k', v) :: kvs' else (k', v') :: setitem k v kvs'
  end.

(** [d.get(k, default)] *)
Definition get (k : string) (default : json) (kvs : list (string * json)) : json :=
  match assoc k kvs with Some v => v | None => default end.

(** Python truthiness of a JSON value. *)
Definition truthy (v : json) : bool :=
  match v with
  | JNull => false
  | JBool b => b
  | JNum z => negb (z =? 0)%Z
  | JStr s => negb (String.eqb s "")
  | JArr l => negb (Nat.eqb (List.length l) 0)
  | JObj kvs => negb (Nat.eqb (List.length kvs) 0)
  end.

Inductive weff :=
  | WError (s : string)         (* messagebox.showerror *)
  | WInfo (s : string)          (* messagebox.showinfo *)
  | WMakeDirs (folder : string) (* os.makedirs(folder, exist_ok=True) *)
  | WSave (cfg : json)          (* save_config(cfg) *)
  | WRun                        (* the download run is started *)
  | WProgress (q : Q)           (* progress bar set *)
  | WPct (s : string)           (* percentage label *)
  | WStatus (s : string)        (* status label *)
  | WLog (s : string)           (* self._append_log(s) *)
  | WOpen (folder : string).    (* os.startfile(folder) *)

(** How a worker's preparation ends: it returns, its thread dies of an
    uncaught exception, or it goes on to the run in [folder] with the
    updated [cfg]. *)
Inductive wres := Stopped | Crashed | Proceed (folder : string) (cfg : json).

(** [folder = folder_field.strip() or cfg.get("download_folder", DEFAULT_DOWNLOAD)];
    [os.makedirs(folder)]; [cfg["download_folder"] = folder]; [save_config(cfg)];
    then the tool check.  [makedirs_ok] says whether [os.makedirs] succeeds. *)
Definition folder_and_tools (makedirs_ok : string -> bool) (dd : string)
    (folder_field : string) (cfg : json) (tools_ok : bool) (tools_msg : string)
  : list weff * wres :=
  let f := Py.strip folder_field in
  let folder :=
    if String.eqb f "" then
      match cfg with
      | JObj kvs => Some (get "download_folder" (JStr dd) kvs)
      | _ => None                     (* cfg.get: AttributeError *)
      end
    else Some (JStr f) in
  match folder with
  | Some (JStr folder) =>
      if makedirs_ok folder then
        match cfg with
        | JObj kvs =>
            let cfg' := JObj (setitem "download_folder" (JStr folder) kvs) in
            if tools_ok then ([WMakeDirs folder; WSave cfg'], Proceed folder cfg')
            else ([WMakeDirs folder; WSave cfg'; WError tools_msg], Stopped)
        | _ => ([WMakeDirs folder], Crashed)   (* item assignment: TypeError *)
        end
      else ([], Crashed)
  | _ => ([], Crashed)                (* os.makedirs of a non-path: TypeError *)
  end.

(** [_single_download_worker] up to the run. *)
Definition single_prelude makedirs_ok dd (url_field folder_field : string) (cfg : json)
    (tools_ok : bool) : list weff * wres :=
  if String.eqb (Py.strip url_field) "" then ([WError "Please paste a URL."], Stopped)
  else folder_and_tools makedirs_ok dd folder_field cfg tools_ok "Tools missing (yt-dlp/ffmpeg).".

(** [_batch_worker] up to the loop; [checked] are the rows' check boxes. *)
Definition batch_prelude makedirs_ok dd (checked : list bool) (folder_field : string)
    (cfg : json) (tools_ok : bool) : list weff * wres :=
  if Nat.eqb (List.length (filter (fun b => b) checked)) 0 then ([WInfo "No items selected."], Stopped)
  else folder_and_tools makedirs_ok dd folder_field cfg tools_ok "Tools missing.".

(** [_batch_worker]'s closing log line. *)
Definition batch_summary (completed total : nat) : string :=
  "Batch finished: " ++ Py.nat_str completed ++ "/" ++ Py.nat_str total ++ " done.".

End Workers.

(* ================================================================== *)
(** * Concrete inputs used by the examples below *)

Module Inputs.

Import Runner Batch Json.

(** Cancel pressed while the worker is blocked in the first [readline]. *)
Definition cancel_in_first_read (pt : point) : bool :=
  match pt with InRead 0 => true | _ => false end.

(** Cancel never pressed. *)
Definition never (_ : point) : bool := false.

Definition spawn_two_lines : Spawn :=
  SpawnOk 0 [Line "[download]   1.0% of 10.00MiB"; Line "[download]  50.0% of 10.00MiB"].

(** Two selected rows; Cancel is pressed while the first row's run is
    blocked in its first [readline]. *)
Definition two_rows : list item :=
  [mkItem false cancel_in_first_read spawn_two_lines;
   mkItem false (fun _ => false) spawn_two_lines].

Definition stored_full : list (string * json) :=
  [("download_folder", JStr "D:\Videos"); ("theme", JStr "dark");
   ("auto_open_folder", JBool false); ("auto_update_ytdlp", JBool true);
   ("audio_format", JStr "mp3"); ("last_checked", JStr "2024.01.01");
   ("app_icon", JStr "icon.ico")].

End Inputs.

(* ================================================================== *)
(** * Properties *)

Module RunnerFacts.

Import Runner Inputs.

Lemma after_loop_not_cancelled kc sched outs m :
  fst (after_loop kc sched outs m) <> Ret (-1) "Cancelled".
Proof.
  unfold after_loop. destruct (process (cancel_at sched AfterLoop outs m)) as [p |];
    [destruct (poll kc outs p) |]; simpl; congruence.
Qed.

Lemma loop_cancelled_needs_cancel kc sched cb :
  forall outs k p,
    fst (loop kc sched cb k outs (mkMgr (Some p) false)) = Ret (-1) "Cancelled" ->
    exists pt, sched pt = true.
Proof.
  intros outs. induction outs as [| x rest IH]; intros k p H; simpl in H;
    unfold cancel_at in H;
    (destruct (sched (AtCheck k)) eqn:E1; [eauto |]); rewrite ?E1 in H; simpl in H;
    (destruct (sched (InRead k)) eqn:E2; [eauto |]); rewrite ?E2 in H; simpl in H.
  - destruct (p_state p); exfalso; exact (after_loop_not_cancelled _ _ _ _ H).
  - destruct (p_state p).
    + destruct x as [line | e].
      * destruct line as [| c line'].
        -- destruct rest as [| y rest'].
           ++ exfalso; exact (after_loop_not_cancelled _ _ _ _ H).
           ++ unfold dispatch in H; eapply IH; eauto.
        -- destruct (dispatch cb (String c line')); [discriminate | eapply IH; eauto].
      * discriminate.
    + exfalso; exact (after_loop_not_cancelled _ _ _ _ H).
Qed.

(** C1 (divergence): if Cancel is pressed while [start] is blocked in
    [readline], the killed child closes its pipe, the loop takes the
    [break] branch without looking at [self.cancelled] again, and [start]
    returns the killed child's exit status with "Done" although the
    manager is marked cancelled. *)
Theorem start_cancel_during_read_returns_kill_code :
  forall (kill_code code : Z) (x : out_item) (rest : list out_item)
         (cb : option (string -> option string)),
    start kill_code cancel_in_first_read cb (mkMgr None false) (SpawnOk code (x :: rest))
    = ((kill_code, "Done"), mkMgr None true).
Proof. intros. reflexivity. Qed.

(** C2: on every path (exit code, spawn error, error while reading or in the
    callback, cancellation) the process handle is [None] when [start]
    returns. *)
Theorem start_clears_process :
  forall (kill_code : Z) (sched : point -> bool) (cb : option (string -> option string))
         (m0 : Mgr) (spawn : Spawn),
    process (snd (start kill_code sched cb m0 spawn)) = None.
Proof.
  intros. unfold start.
  destruct spawn as [code outs | e];
    [destruct (loop kill_code sched cb 0 outs _) as [[rc msg | e] m'] | ];
    reflexivity.
Qed.

(** C10: [start] first resets [cancelled]: the flag left in the manager
    before the call does not influence the run, and the cancelled result
    [(-1, "Cancelled")] arises only when [cancel] runs during the call. *)
Theorem start_discards_prior_cancel :
  forall (kill_code : Z) (sched : point -> bool) (cb : option (string -> option string))
         (p : option Proc) (b : bool) (spawn : Spawn),
    start kill_code sched cb (mkMgr p b) spawn = start kill_code sched cb (mkMgr p false) spawn /\
    (fst (start kill_code sched cb (mkMgr p b) spawn) = ((-1)%Z, "Cancelled") ->
     exists pt, sched pt = true).
Proof.
  intros kc sched cb p b spawn. split; [reflexivity |].
  intros H. unfold start in H. destruct spawn as [code outs | e].
  - destruct (loop kc sched cb 0 outs (mkMgr (Some (mkProc code Running)) false))
      as [[rc msg | e] m'] eqn:E; simpl in H.
    + inversion H; subst. eapply (loop_cancelled_needs_cancel kc sched cb outs 0).
      rewrite E. reflexivity.
    + inversion H.
  - simpl in H. inversion H.
Qed.

End RunnerFacts.

Module BatchFacts.

Import Runner Batch Inputs.

Lemma batch_loop_stops kc cb :
  forall rows idx m c k e,
    nth_error (fst (fst (batch_loop kc cb idx rows m c))) k = Some e ->
    r_idx e = (idx + k)%nat /\
    ((r_rc e = (-1)%Z \/ r_cancelled_after e = true) ->
     List.length (fst (fst (batch_loop kc cb idx rows m c))) = S k).
Proof.
  intros rows. induction rows as [| r rest IH]; intros idx m c k e H; simpl in *.
  - destruct k; discriminate.
  - destruct (cancelled m); [destruct k; discriminate |].
    destruct (start kc (ie_sched r) cb (if ie_pre r then mkMgr (process m) true else m)
                (ie_spawn r)) as [[rc msg] m'].
    destruct (rc =? 0)%Z eqn:E0.
    + destruct (batch_loop kc cb (S idx) rest m' (S c)) as [[runs c'] mf] eqn:EL.
      simpl in *. destruct k as [| k].
      * inversion H; subst; simpl. split; [lia |].
        apply Z.eqb_eq in E0; subst. intros [Hc | Hc]; [discriminate |].
        destruct rest as [| r' rest']; simpl in EL; [inversion EL; reflexivity |].
        rewrite Hc in EL. inversion EL; reflexivity.
      * specialize (IH (S idx) m' (S c) k e). rewrite EL in IH. simpl in IH.
        destruct (IH H) as [H1 H2]. split; [lia |]. intros Hc. rewrite (H2 Hc). reflexivity.
    + destruct (rc =? -1)%Z eqn:E1.
      * simpl in *. destruct k as [| [| k]]; simpl in H; inversion H; subst; simpl.
        split; [lia | reflexivity].
      * destruct (batch_loop kc cb (S idx) rest m' c) as [[runs c'] mf] eqn:EL.
        simpl in *. destruct k as [| k].
        -- inversion H; subst; simpl. split; [lia |].
           apply Z.eqb_neq in E1. intros [Hc | Hc]; [contradiction |].
           destruct rest as [| r' rest']; simpl in EL; [inversion EL; reflexivity |].
           rewrite Hc in EL. inversion EL; reflexivity.
        -- specialize (IH (S idx) m' c k e). rewrite EL in IH. simpl in IH.
           destruct (IH H) as [H1 H2]. split; [lia |]. intros Hc. rewrite (H2 Hc). reflexivity.
Qed.

(** C5: the rows are dispatched one after the other, the [k]-th dispatched
    run being row [k+1]; when the run of a row returns the cancelled
    sentinel, or [self.batch_mgr.cancelled] is set when it returns (and so
    when the loop tests it before the next row), that run is the last one:
    no later row is started. *)
Theorem batch_stops_after_cancelled_item :
  forall (kill_code : Z) (cb : option (string -> option string))
         (rows : list item) (m : Mgr) (k : nat) (e : run),
    nth_error (fst (fst (batch_worker kill_code cb rows m))) k = Some e ->
    (r_rc e = (-1)%Z \/ r_cancelled_after e = true) ->
    r_idx e = S k /\ List.length (fst (fst (batch_worker kill_code cb rows m))) = S k.
Proof.
  intros kc cb rows m k e H Hc. unfold batch_worker in *.
  destruct (batch_loop_stops kc cb rows 1 m 0 k e H) as [H1 H2].
  split; [exact H1 | exact (H2 Hc)].
Qed.

Lemma batch_stops_after_cancelled_item_witness :
  nth_error (fst (fst (batch_worker 1 None two_rows (mkMgr None false)))) 0
    = Some (mkRun 1 1 "Failed" true) /\
  List.length (fst (fst (batch_worker 1 None two_rows (mkMgr None false)))) = 1%nat.
Proof.
  pose proof (batch_stops_after_cancelled_item 1 None two_rows (mkMgr None false) 0
                (mkRun 1 1 "Failed" true) eq_refl (or_intror eq_refl)) as [_ H].
  split; [reflexivity | exact H].
Defined.

End BatchFacts.

Module ConfigFacts.

Import Json Config Inputs.

Lemma assoc_app k kvs k0 v0 :
  assoc k (kvs ++ [(k0, v0)])%list =
  match assoc k kvs with Some v => Some v | None => if String.eqb k k0 then Some v0 else None end.
Proof.
  induction kvs as [| [k1 v1] kvs IH]; simpl.
  - reflexivity.
  - destruct (String.eqb k k1); [reflexivity | exact IH].
Qed.

Lemma fill_dict :
  forall ds kvs, exists kvs',
    fill ds (JObj kvs) = Some (JObj kvs') /\
    forall k, assoc k kvs' =
              match assoc k kvs with Some v => Some v | None => assoc k ds end.
Proof.
  induction ds as [| [k0 v0] ds IH]; intros kvs; simpl.
  - exists kvs. split; [reflexivity |]. intros k. destruct (assoc k kvs); reflexivity.
  - unfold has_key. destruct (assoc k0 kvs) as [w |] eqn:E.
    + destruct (IH kvs) as [kvs' [H1 H2]]. exists kvs'. split; [exact H1 |].
      intros k. rewrite H2. destruct (assoc k kvs) eqn:Ek; [reflexivity |].
      destruct (String.eqb k k0) eqn:Ekk; [| reflexivity].
      apply String.eqb_eq in Ekk; subst. congruence.
    + destruct (IH (kvs ++ [(k0, v0)])%list) as [kvs' [H1 H2]]. exists kvs'.
      split; [exact H1 |]. intros k. rewrite H2, assoc_app.
      destruct (assoc k kvs); [reflexivity |].
      destruct (String.eqb k k0); reflexivity.
Qed.

Lemma fill_complete :
  forall ds kvs,
    forallb (fun kv => has_key (fst kv) kvs) ds = true ->
    fill ds (JObj kvs) = Some (JObj kvs).
Proof.
  induction ds as [| [k0 v0] ds IH]; intros kvs H; simpl in *.
  - reflexivity.
  - apply andb_true_iff in H as [H1 H2]. rewrite H1. apply IH, H2.
Qed.

(** C6 (as stated, fails): saving a record that lacks default keys and
    loading it back does not give the saved record. *)
Lemma save_load_incomplete_record :
  load_config "C:\Users\u\Downloads" "icon.ico" (save_config (JObj [("theme", JStr "light")]))
  <> JObj [("theme", JStr "light")].
Proof. vm_compute. discriminate. Qed.

(** C6 (amended): a stored dictionary is completed key by key, present keys
    keeping their stored values and missing ones taking the default; saving
    a record that has every default key and loading it back gives it back
    unchanged. *)
Theorem load_fills_defaults_and_roundtrips :
  forall (dd ip : string) (kvs : list (string * json)),
    (exists kvs',
        load_config dd ip (Present (Doc (JObj kvs))) = JObj kvs' /\
        forall k, assoc k kvs' =
                  match assoc k kvs with
                  | Some v => Some v
                  | None => assoc k (DEFAULT_CONFIG dd ip)
                  end) /\
    (forallb (fun kv => has_key (fst kv) kvs) (DEFAULT_CONFIG dd ip) = true ->
     load_config dd ip (save_config (JObj kvs)) = JObj kvs).
Proof.
  intros dd ip kvs. split.
  - destruct (fill_dict (DEFAULT_CONFIG dd ip) kvs) as [kvs' [H1 H2]].
    exists kvs'. unfold load_config. rewrite H1. split; [reflexivity | exact H2].
  - intros H. unfold load_config, save_config. rewrite fill_complete by exact H.
    reflexivity.
Qed.

Lemma load_fills_defaults_and_roundtrips_witness :
  forallb (fun kv => has_key (fst kv) stored_full)
          (DEFAULT_CONFIG "C:\Users\u\Downloads" "icon.ico") = true /\
  load_config "C:\Users\u\Downloads" "icon.ico" (save_config (JObj stored_full))
    = JObj stored_full.
Proof.
  split; [vm_compute; reflexivity |].
  apply (proj2 (load_fills_defaults_and_roundtrips "C:\Users\u\Downloads" "icon.ico" stored_full)).
  vm_compute. reflexivity.
Defined.

(** C9: with no configuration file, or with one whose contents are not
    JSON, [load_config] returns the complete default record. *)
Theorem load_missing_or_garbage_gives_defaults :
  forall dd ip : string,
    load_config dd ip Absent = JObj (DEFAULT_CONFIG dd ip) /\
    load_config dd ip (Present Garbage) = JObj (DEFAULT_CONFIG dd ip).
Proof. split; reflexivity. Qed.

End ConfigFacts.

Module PlaylistFacts.

Import Json Playlist.

(** C7: when the metadata fetch exits with 0 but its output is not JSON,
    the worker goes on: it logs the start with an "unknown" total and runs
    the download. *)
Theorem playlist_unparsable_metadata_still_downloads :
  forall (url : string) (dl_rc : Z),
    Py.strip url <> "" ->
    exists tail,
      playlist_worker url true 0 Garbage dl_rc =
      ([Log "Fetching playlist info..."; RunInfo;
       Log "Starting playlist download (approx. unknown items)..."; RunDownload] ++ tail)%list.
Proof.
  intros url dl_rc H. unfold playlist_worker.
  apply String.eqb_neq in H. rewrite H. simpl.
  eexists. reflexivity.
Qed.

Lemma playlist_unparsable_metadata_still_downloads_witness :
  Py.strip "https://www.youtube.com/playlist?list=PL1" <> "" /\
  exists tail,
    playlist_worker "https://www.youtube.com/playlist?list=PL1" true 0 Garbage 0 =
    ([Log "Fetching playlist info..."; RunInfo;
     Log "Starting playlist download (approx. unknown items)..."; RunDownload] ++ tail)%list.
Proof.
  split; [vm_compute; discriminate |].
  apply playlist_unparsable_metadata_still_downloads. vm_compute. discriminate.
Defined.

End PlaylistFacts.

Module PercFacts.

Import Perc.

Lemma first_some_In {A B} (f : A -> option B) l b :
  first_some f l = Some b -> exists x, In x l /\ f x = Some b.
Proof.
  induction l as [| x l IH]; simpl; [discriminate |].
  destruct (f x) eqn:E; intros H.
  - inversion H; subst. eauto.
  - destruct (IH H) as [y [Hy Hf]]. eauto.
Qed.

Lemma countdown_In n m : In n (countdown m) -> (1 <= n <= m)%nat.
Proof.
  induction m as [| m IH]; simpl; [tauto |].
  intros [H | H]; [lia | specialize (IH H); lia].
Qed.

Lemma digit_run_split :
  forall c s, (c <= digit_run s)%nat ->
  exists ip rest, s = (ip ++ rest)%string /\ String.length ip = c /\ all_digits ip = true.
Proof.
  induction c as [| c IH]; intros s H.
  - exists "", s. auto.
  - destruct s as [| ch s']; simpl in H; [lia |].
    destruct (is_digit ch) eqn:Ed; [| lia].
    destruct (IH s') as [ip [rest [H1 [H2 H3]]]]; [lia |].
    exists (String ch ip), rest. subst. simpl. rewrite Ed, H3. auto.
Qed.

Lemma get_app_length x y : get (String.length x) (x ++ y) = get 0 y.
Proof. induction x as [| c x IH]; simpl; auto. Qed.

Lemma drop_app_length x y : drop (String.length x) (x ++ y) = y.
Proof. induction x as [| c x IH]; simpl; auto. Qed.

Lemma append_empty_r (x : string) : (x ++ "")%string = x.
Proof. induction x as [| c x IH]; simpl; [reflexivity | rewrite IH; reflexivity]. Qed.

Lemma drop_app_plus x y n : drop (String.length x + n) (x ++ y) = drop n y.
Proof. induction x as [| c x IH]; simpl; auto. Qed.

Lemma substring0_app x y m :
  substring 0 (String.length x + m) (x ++ y) = (x ++ substring 0 m y)%string.
Proof. induction x as [| c x IH]; simpl; [reflexivity | rewrite IH; reflexivity]. Qed.

Lemma digit_run_app ip y :
  all_digits ip = true -> digit_run (ip ++ y) = (String.length ip + digit_run y)%nat.
Proof.
  induction ip as [| c ip IH]; simpl; [reflexivity |].
  intros H. apply andb_true_iff in H as [H1 H2]. rewrite H1, IH; auto.
Qed.

Lemma match_frac_shape r n :
  match_frac r = Some n ->
  exists fp rest, r = (fp ++ String "%" rest)%string /\ String.length fp = n /\
                  all_digits fp = true /\ (1 <= n)%nat.
Proof.
  unfold match_frac. intros H.
  destruct (first_some_In _ _ _ H) as [n' [Hin Hf]].
  apply countdown_In in Hin.
  destruct (get n' r) as [ch |] eqn:Eg; [| discriminate].
  destruct (Ascii.eqb ch "%"%char) eqn:Ech.
  - apply Ascii.eqb_eq in Ech; subst ch.
    destruct (digit_run_split n' r) as [fp [rest [H1 [H2 H3]]]]; [lia |].
    subst r. rewrite <- H2, get_app_length in Eg.
    destruct rest as [| c rest]; simpl in Eg; [discriminate |]. inversion Eg; subst.
    inversion Hf; subst. exists fp, rest. repeat split; auto; lia.
  - exfalso. apply Ascii.eqb_neq in Ech.
    revert Hf. destruct ch as [[] [] [] [] [] [] [] []]; try discriminate;
      intros; apply Ech; reflexivity.
Qed.

Lemma match_at_shape s g : match_at s = Some g -> decimal_shape g.
Proof.
  unfold match_at. intros H.
  destruct (first_some_In _ _ _ H) as [c [Hin Hf]]. clear H.
  destruct (c <=? digit_run s)%nat eqn:Ec; [| discriminate].
  apply Nat.leb_le in Ec.
  destruct (digit_run_split c s Ec) as [ip [rest [H1 [H2 H3]]]]. subst s.
  rewrite <- H2, get_app_length in Hf.
  destruct rest as [| ch rest]; [discriminate |].
  change (get 0 (String ch rest)) with (Some ch) in Hf.
  destruct (Ascii.eqb ch "."%char) eqn:Ech.
  - apply Ascii.eqb_eq in Ech; subst ch.
    replace (S (String.length ip)) with (String.length ip + 1)%nat in Hf by lia.
    rewrite drop_app_plus in Hf. simpl in Hf.
    destruct (match_frac rest) as [n |] eqn:Em; [| discriminate].
    inversion Hf; subst g. clear Hf.
    destruct (match_frac_shape rest n Em) as [fp [rest' [R1 [R2 [R3 R4]]]]]. subst rest.
    exists ip, fp. split.
    + rewrite <- Nat.add_assoc, substring0_app. simpl. rewrite <- R2.
      replace (String.length fp) with (String.length fp + 0)%nat by lia.
      rewrite substring0_app. simpl. rewrite append_empty_r. reflexivity.
    + destruct Hin as [<- | [<- | [<- | []]]]; repeat split; auto; lia.
  - exfalso. revert Hf. destruct ch as [[] [] [] [] [] [] [] []]; try discriminate;
      intros; simpl in Ech; discriminate.
Qed.

Lemma search_shape s g : search s = Some g -> decimal_shape g.
Proof.
  induction s as [| c s IH]; intros H; simpl in H.
  - destruct (match_at "") eqn:E;
      [inversion H; subst; eapply match_at_shape; eauto | discriminate].
  - destruct (match_at (String c s)) eqn:E;
      [inversion H; subst; eapply match_at_shape; eauto | apply IH, H].
Qed.

Lemma digits_val_bounds :
  forall s acc, all_digits s = true -> (0 <= acc)%Z ->
    (acc * 10 ^ Z.of_nat (String.length s) <= digits_val_acc acc s <
     (acc + 1) * 10 ^ Z.of_nat (String.length s))%Z.
Proof.
  induction s as [| c s IH]; intros acc Hd Hacc.
  - simpl. lia.
  - cbn [digits_val_acc String.length all_digits] in *.
    apply andb_true_iff in Hd as [Hc Hs]. unfold is_digit in Hc.
    apply andb_true_iff in Hc as [Hc1 Hc2].
    apply Nat.leb_le in Hc1. apply Nat.leb_le in Hc2.
    set (d := Z.of_nat (nat_of_ascii c - 48)).
    assert (Hd : (0 <= d <= 9)%Z) by (unfold d; lia).
    specialize (IH (10 * acc + d)%Z Hs ltac:(lia)).
    rewrite Nat2Z.inj_succ, Z.pow_succ_r by lia.
    assert (0 < 10 ^ Z.of_nat (String.length s))%Z by (apply Z.pow_pos_nonneg; lia).
    nia.
Qed.

Lemma pos_of_nat_pow10 n :
  Zpos (Pos.of_nat (Nat.pow 10 n)) = (10 ^ Z.of_nat n)%Z.
Proof.
  rewrite <- positive_nat_Z, Nat2Pos.id.
  - rewrite Nat2Z.inj_pow. reflexivity.
  - apply Nat.pow_nonzero. lia.
Qed.

Lemma float_of_decimal ip fp :
  all_digits ip = true ->
  float_of (ip ++ String "." fp) =
  Qmake (digits_val_acc 0 (ip ++ fp)) (Pos.of_nat (Nat.pow 10 (String.length fp))).
Proof.
  intros H. unfold float_of. rewrite digit_run_app by exact H.
  change (digit_run (String "." fp)) with 0%nat. rewrite Nat.add_0_r.
  replace (S (String.length ip)) with (String.length ip + 1)%nat by lia.
  rewrite drop_app_plus. change (drop 1 (String "." fp)) with fp.
  replace (String.length ip) with (String.length ip + 0)%nat by lia.
  rewrite substring0_app. change (substring 0 0 (String "." fp)) with "".
  rewrite append_empty_r. reflexivity.
Qed.

Lemma length_app (x y : string) :
  String.length (x ++ y) = (String.length x + String.length y)%nat.
Proof. induction x as [| c x IH]; simpl; auto. Qed.

Lemma all_digits_app x y :
  all_digits x = true -> all_digits y = true -> all_digits (x ++ y) = true.
Proof.
  induction x as [| c x IH]; simpl; auto.
  intros H Hy. apply andb_true_iff in H as [H1 H2]. rewrite H1, IH; auto.
Qed.

Lemma fraction_bounds g :
  decimal_shape g -> 0 <= float_of g / 100 /\ float_of g / 100 < 10.
Proof.
  intros [ip [fp [-> [Hi [Hf [Hli Hlf]]]]]].
  rewrite float_of_decimal by exact Hi.
  pose proof (digits_val_bounds (ip ++ fp) 0 (all_digits_app _ _ Hi Hf) ltac:(lia))
    as [Hlo Hhi].
  rewrite length_app, Nat2Z.inj_add, Z.pow_add_r in Hhi by lia.
  assert (Hip : (10 ^ Z.of_nat (String.length ip) <= 1000)%Z).
  { change 1000%Z with (10 ^ Z.of_nat 3)%Z. apply Z.pow_le_mono_r; lia. }
  assert (Hp : (0 < 10 ^ Z.of_nat (String.length fp))%Z) by (apply Z.pow_pos_nonneg; lia).
  split.
  - apply Qle_shift_div_l; [reflexivity |].
    unfold Qle; simpl. nia.
  - apply Qlt_shift_div_r; [reflexivity |].
    change (10 * 100) with (1000 # 1). unfold Qlt. cbn [Qnum Qden].
    rewrite pos_of_nat_pow10. nia.
Qed.

End PercFacts.

Module SubstrFacts.

Import Py.

Lemma startswith_prefix_l s p q :
  startswith s (p ++ q) = true -> startswith s p = true.
Proof.
  revert s. induction p as [| c p IH]; intros s H; [destruct s; reflexivity |].
  destruct s as [| d s]; simpl in *; [discriminate |].
  apply andb_true_iff in H as [H1 H2]. rewrite H1. simpl. apply IH, H2.
Qed.

Lemma contains_prefix_l p q s :
  contains (p ++ q) s = true -> contains p s = true.
Proof.
  induction s as [| c s IH]; intros H.
  - apply orb_true_iff in H as [H | H]; [| discriminate].
    apply orb_true_iff. left. exact (startswith_prefix_l "" p q H).
  - apply orb_true_iff in H as [H | H]; apply orb_true_iff.
    + left. exact (startswith_prefix_l (String c s) p q H).
    + right. exact (IH H).
Qed.

Lemma startswith_suffix_contains s p q :
  startswith s (p ++ q) = true -> contains q s = true.
Proof.
  revert s. induction p as [| c p IH]; intros s H.
  - destruct s; simpl in *; rewrite H; reflexivity.
  - destruct s as [| d s]; simpl in *; [discriminate |].
    apply andb_true_iff in H as [_ H2]. rewrite (IH s H2). apply orb_true_r.
Qed.

Lemma contains_suffix p q s :
  contains (p ++ q) s = true -> contains q s = true.
Proof.
  induction s as [| c s IH]; intros H.
  - apply orb_true_iff in H as [H | H]; [| discriminate].
    exact (startswith_suffix_contains "" p q H).
  - apply orb_true_iff in H as [H | H].
    + exact (startswith_suffix_contains (String c s) p q H).
    + simpl. rewrite (IH H). apply orb_true_r.
Qed.

Lemma contains_after_first sep s :
  contains sep s = true -> after_first sep s <> None.
Proof.
  induction s as [| c s IH]; intros H.
  - simpl in H. rewrite orb_false_r in H. destruct sep; simpl in *; [discriminate | discriminate].
  - simpl in H. apply orb_true_iff in H as [H | H].
    + destruct sep; simpl in *; [discriminate |]. rewrite H. discriminate.
    + destruct sep as [| a sep]; simpl; [discriminate |].
      destruct (Ascii.eqb a c && startswith s sep); [discriminate |]. apply IH, H.
Qed.

Lemma destination_has_download line :
  contains "[download] Destination:" line = true -> contains "[download]" line = true.
Proof. apply (contains_prefix_l "[download]" " Destination:"). Qed.

Lemma destination_has_fname line :
  contains "[download] Destination:" line = true ->
  exists fname, Classify.dest_fname line = Some fname.
Proof.
  intros H. apply (contains_suffix "[download] " "Destination:") in H.
  apply contains_after_first in H. unfold Classify.dest_fname.
  destruct (after_first "Destination:" line) as [x |]; [| congruence].
  exists (strip x). reflexivity.
Qed.

End SubstrFacts.

Module ClassifyFacts.

Import Classify.

(** C3 (as stated, fails): the fraction is not clamped to [0,1]. *)
Lemma progress_not_clamped :
  snd (single_line_cb "video" "[download] 100.5% of 10.00MiB")
    = [SetProgress (Perc.float_of "100.5" / 100); SetPctLabel "100.5%";
       AppendLog "[download] 100.5% of 10.00MiB"] /\
  1 < Perc.float_of "100.5" / 100.
Proof. split; vm_compute; reflexivity. Qed.

(** C3 (amended): when [PERC_RE.search] finds a match, group 1 is one to
    three digits, a dot and digits; the first progress update of the
    single-download classifier is that number divided by 100, not clamped:
    it lies in [0, 10). *)
Theorem single_progress_is_match_over_100 :
  forall (current_type line g : string),
    Perc.search line = Some g ->
    Perc.decimal_shape g /\
    (exists rest, snd (single_line_cb current_type line)
                  = SetProgress (Perc.float_of g / 100) :: SetPctLabel (g ++ "%") :: rest) /\
    0 <= Perc.float_of g / 100 /\ Perc.float_of g / 100 < 10.
Proof.
  intros ct line g H.
  pose proof (PercFacts.search_shape line g H) as Hs.
  split; [exact Hs |]. split; [| apply PercFacts.fraction_bounds, Hs].
  unfold single_line_cb. rewrite H.
  destruct (if Py.contains "[download] Destination:" line then _ else _) as [ct' a2].
  eexists. reflexivity.
Qed.

Lemma single_progress_is_match_over_100_witness :
  Perc.search "[download]  45.2% of 10.00MiB" = Some "45.2" /\
  Perc.float_of "45.2" / 100 == 452 # 1000 /\
  exists rest, snd (single_line_cb "video" "[download]  45.2% of 10.00MiB")
               = SetProgress (Perc.float_of "45.2" / 100) :: SetPctLabel "45.2%" :: rest.
Proof.
  split; [reflexivity |]. split; [vm_compute; reflexivity |].
  apply (single_progress_is_match_over_100 "video" "[download]  45.2% of 10.00MiB" "45.2").
  reflexivity.
Defined.

Lemma last_progress_app a b :
  last_progress (a ++ b) =
  match last_progress b with Some q => Some q | None => last_progress a end.
Proof.
  induction a as [| x a IH]; simpl.
  - destruct (last_progress b); reflexivity.
  - rewrite IH. destruct x; try reflexivity.
    destruct (last_progress b); [reflexivity |]. destruct (last_progress a); reflexivity.
Qed.

(** C8 (as stated, fails): the single-download classifier reacts to the
    phrase only on a line that also carries "[download]", and the batch
    classifier never sets a progress fraction for it. *)
Lemma already_downloaded_not_always_complete :
  single_line_cb "video" "a.mp4 has already been downloaded"
    = ("video", [AppendLog "a.mp4 has already been downloaded"]) /\
  batch_line_cb "Init" "[download] a.mp4 has already been downloaded"
    = ("Exists", [RowStatus "Exists" "success"]).
Proof. split; vm_compute; reflexivity. Qed.

(** C8 (amended): in the single-download classifier a line with both
    "[download]" and "has already been downloaded" (and no
    "[download] Destination:") sets the title "Already downloaded" and leaves
    the progress bar at 1; a line with the phrase but without "[download]"
    keeps the phase and gets no "Already downloaded" title, and it sets a
    progress value only when it carries a percentage or "[Merger]" (as any
    line does); in the batch classifier a line with "has already been
    downloaded" (and neither "[download] Destination:" nor "[Merger]") only
    moves the stage to "Exists" and sets the row status "Exists" with the
    success colour.  Neither reports a failure. *)
Theorem already_downloaded_effects :
  (forall current_type line : string,
     Py.contains "[download]" line = true ->
     Py.contains "has already been downloaded" line = true ->
     Py.contains "[download] Destination:" line = false ->
     fst (single_line_cb current_type line) = current_type /\
     In (SetTitle "Already downloaded") (snd (single_line_cb current_type line)) /\
     last_progress (snd (single_line_cb current_type line)) = Some 1) /\
  (forall current_type line : string,
     Py.contains "has already been downloaded" line = true ->
     Py.contains "[download]" line = false ->
     fst (single_line_cb current_type line) = current_type /\
     ~ In (SetTitle "Already downloaded") (snd (single_line_cb current_type line)) /\
     (forall q, In (SetProgress q) (snd (single_line_cb current_type line)) ->
        Perc.search line <> None \/ Py.contains "[Merger]" line = true)) /\
  (forall current_stage line : string,
     Py.contains "has already been downloaded" line = true ->
     Py.contains "[download] Destination:" line = false ->
     Py.contains "[Merger]" line = false ->
     batch_line_cb current_stage line = ("Exists", [RowStatus "Exists" "success"])).
Proof.
  split.
  - intros ct line H1 H2 H3. unfold single_line_cb.
    rewrite H3, H1, H2. simpl.
    split; [reflexivity |]. split.
    + apply in_or_app. right. left. reflexivity.
    + rewrite !last_progress_app. simpl.
      destruct (Py.contains "[Merger]" line); simpl; [reflexivity |].
      destruct (Py.contains "[ExtractAudio]" line); reflexivity.
  - split.
    + intros ct line _ Hd.
      assert (H3 : Py.contains "[download] Destination:" line = false).
      { destruct (Py.contains "[download] Destination:" line) eqn:E; [| reflexivity].
        rewrite (SubstrFacts.destination_has_download line E) in Hd. discriminate. }
      unfold single_line_cb. rewrite H3, Hd. cbn [andb fst snd].
      split; [reflexivity |]. split.
      * destruct (Perc.search line); destruct (Py.contains "[Merger]" line);
          try destruct (Py.contains "[ExtractAudio]" line); simpl; intuition discriminate.
      * intros q Hq. destruct (Perc.search line) as [g |]; [left; discriminate | right].
        destruct (Py.contains "[Merger]" line); [reflexivity |].
        destruct (Py.contains "[ExtractAudio]" line); simpl in Hq; intuition discriminate.
    + intros st line H1 H2 H3. unfold batch_line_cb. rewrite H2, H3, H1. reflexivity.
Qed.

Lemma already_downloaded_effects_witness :
  fst (single_line_cb "video" "[download] a.mp4 has already been downloaded") = "video" /\
  last_progress (snd (single_line_cb "video" "[download] a.mp4 has already been downloaded"))
    = Some 1 /\
  fst (single_line_cb "audio" "a.mp4 has already been downloaded") = "audio" /\
  ~ In (SetTitle "Already downloaded") (snd (single_line_cb "audio" "a.mp4 has already been downloaded")) /\
  batch_line_cb "Init" "[download] a.mp4 has already been downloaded"
    = ("Exists", [RowStatus "Exists" "success"]).
Proof.
  destruct already_downloaded_effects as [Hs [Hn Hb]].
  destruct (Hs "video" "[download] a.mp4 has already been downloaded")
    as [E1 [_ E3]]; try (vm_compute; reflexivity).
  destruct (Hn "audio" "a.mp4 has already been downloaded")
    as [F1 [F2 _]]; try (vm_compute; reflexivity).
  split; [exact E1 |]. split; [exact E3 |]. split; [exact F1 |]. split; [exact F2 |].
  apply Hb; vm_compute; reflexivity.
Defined.

End ClassifyFacts.

Module PathFacts.

Import NtPath.

Lemma sapp_assoc (x y z : string) : ((x ++ y) ++ z)%string = (x ++ (y ++ z))%string.
Proof. induction x as [| c x IH]; simpl; [reflexivity | rewrite IH; reflexivity]. Qed.

Lemma rfind_by_range f s :
  forall i, (0 <= i)%Z ->
  rfind_by f i s = (-1)%Z \/ (i <= rfind_by f i s < i + Z.of_nat (String.length s))%Z.
Proof.
  induction s as [| c s IH]; intros i Hi; simpl; [left; reflexivity |].
  destruct (IH (i + 1)%Z ltac:(lia)) as [E | E].
  - rewrite E. simpl. destruct (f c); [right; lia | left; reflexivity].
  - destruct (rfind_by f (i + 1) s =? -1)%Z eqn:Ez; [apply Z.eqb_eq in Ez; lia |].
    right. lia.
Qed.

Lemma rfind_by_none f t i : none_of f t = true -> rfind_by f i t = (-1)%Z.
Proof.
  revert i. induction t as [| c t IH]; intros i H; simpl in *; [reflexivity |].
  apply andb_true_iff in H as [H1 H2]. rewrite IH by exact H2. simpl.
  apply negb_true_iff in H1. rewrite H1. reflexivity.
Qed.

Lemma rfind_by_app_none f x t i :
  none_of f t = true -> rfind_by f i (x ++ t) = rfind_by f i x.
Proof.
  revert i. induction x as [| c x IH]; intros i H; simpl.
  - apply rfind_by_none, H.
  - rewrite IH by exact H. reflexivity.
Qed.

Lemma rfind_by_last f x c t i :
  f c = true -> none_of f t = true -> (0 <= i)%Z ->
  rfind_by f i (x ++ String c t) = (i + Z.of_nat (String.length x))%Z.
Proof.
  revert i. induction x as [| a x IH]; intros i Hc Ht Hi; simpl.
  - rewrite rfind_by_none by exact Ht. simpl. rewrite Hc. lia.
  - rewrite IH by (auto; lia).
    destruct (i + 1 + Z.of_nat (String.length x) =? -1)%Z eqn:E; [apply Z.eqb_eq in E; lia |].
    lia.
Qed.

Lemma get_app_lt x y n : (n < String.length x)%nat -> get n (x ++ y) = get n x.
Proof.
  revert n. induction x as [| c x IH]; intros n H; simpl in *; [lia |].
  destruct n; [reflexivity | apply IH; lia].
Qed.

Lemma get_app_length' x y n : get (String.length x + n) (x ++ y) = get n y.
Proof. induction x as [| c x IH]; simpl; auto. Qed.

(** [splitext] on [P ++ "." ++ e]: the extension is split off when the
    last separator lies before the final component of [P] and that
    component starts with a character other than a dot. *)
Lemma splitext_last_dot P e (sepIndex : Z) (c : ascii) :
  none_of (fun c => Ascii.eqb c "."%char) e = true ->
  Z.max (rfind (fun c => Ascii.eqb c "\"%char) (P ++ String "." e))
        (rfind (fun c => Ascii.eqb c "/"%char) (P ++ String "." e)) = sepIndex ->
  (-1 <= sepIndex)%Z ->
  (sepIndex + 1 < Z.of_nat (String.length P))%Z ->
  get (Z.to_nat (sepIndex + 1)) P = Some c -> c <> "."%char ->
  splitext (P ++ String "." e) = (P, String "." e).
Proof.
  intros He Hsep Hlo Hhi Hc Hcd. unfold splitext. rewrite Hsep.
  assert (Hdot : rfind (fun c => Ascii.eqb c "."%char) (P ++ String "." e)
                 = Z.of_nat (String.length P)).
  { unfold rfind. rewrite rfind_by_last by (auto; lia). lia. }
  rewrite Hdot.
  replace (sepIndex <? Z.of_nat (String.length P))%Z with true by (symmetry; apply Z.ltb_lt; lia).
  rewrite PercFacts.length_app. simpl String.length.
  replace (String.length P + S (String.length e))%nat
    with (S (String.length P + String.length e)) by lia.
  cbv beta iota fix.
  replace (sepIndex + 1 <? Z.of_nat (String.length P))%Z with true by (symmetry; apply Z.ltb_lt; lia).
  unfold char_at. rewrite get_app_lt by lia. rewrite Hc.
  rewrite Nat2Z.id.
  assert (Hs : substring 0 (String.length P) (P ++ String "." e) = P).
  { replace (String.length P) with (String.length P + 0)%nat by lia.
    rewrite PercFacts.substring0_app. simpl substring. apply PercFacts.append_empty_r. }
  rewrite Hs, PercFacts.drop_app_length.
  destruct c as [[] [] [] [] [] [] [] []]; try reflexivity. exfalso; apply Hcd; reflexivity.
Qed.

Lemma none_of_weaken f g s :
  (forall c, g c = true -> f c = true) -> none_of f s = true -> none_of g s = true.
Proof.
  intros Hfg. induction s as [| c s IH]; simpl; [auto |].
  intros H. apply andb_true_iff in H as [H1 H2]. rewrite IH by exact H2.
  destruct (g c) eqn:E; [rewrite (Hfg c E) in H1; discriminate | reflexivity].
Qed.

Lemma none_of_app f x y :
  none_of f x = true -> none_of f y = true -> none_of f (x ++ y) = true.
Proof.
  induction x as [| c x IH]; simpl; auto.
  intros H Hy. apply andb_true_iff in H as [H1 H2]. rewrite H1, IH; auto.
Qed.

Lemma slash_sep c : Ascii.eqb c "/"%char = true -> is_sep c = true.
Proof. intros H. unfold is_sep. rewrite H. apply orb_true_r. Qed.

Lemma backslash_sep c : Ascii.eqb c "\"%char = true -> is_sep c = true.
Proof. intros H. unfold is_sep. rewrite H. reflexivity. Qed.

Lemma basename_last_component x t :
  none_of is_sep t = true -> basename (x ++ String "/" t) = t.
Proof.
  intros Ht.
  assert (Hgen : forall y, rfind is_sep (y ++ String "/" t) = Z.of_nat (String.length y) /\
                           Perc.drop (Z.to_nat (rfind is_sep (y ++ String "/" t) + 1))
                                     (y ++ String "/" t) = t).
  { intros y. unfold rfind. rewrite rfind_by_last by (auto; lia). split; [lia |].
    replace (Z.to_nat (0 + Z.of_nat (String.length y) + 1)) with (String.length y + 1)%nat by lia.
    rewrite PercFacts.drop_app_plus. reflexivity. }
  unfold basename.
  destruct x as [| a [| b x]].
  - simpl. destruct t as [| c2 t]; [reflexivity |].
    change (String "/" (String c2 t)) with ("" ++ String "/" (String c2 t))%string.
    unfold is_sep at 1. simpl (negb _). rewrite andb_false_r. apply Hgen.
  - change (String a "" ++ String "/" t)%string with (String a (String "/" t)).
    change (Ascii.eqb "/" ":") with false. simpl andb.
    apply (proj2 (Hgen (String a ""))).
  - change ((String a (String b x)) ++ String "/" t)%string
      with (String a (String b (x ++ String "/" t))).
    cbv iota beta. destruct (Ascii.eqb b ":"%char && negb (is_sep a)).
    + apply Hgen.
    + apply (proj2 (Hgen (String a (String b x)))).
Qed.

Lemma none_of_seps f s :
  (forall c, f c = true -> is_sep c = true) -> none_of is_sep s = true -> none_of f s = true.
Proof. intros H. apply none_of_weaken. exact H. Qed.

Lemma splitext_name c s' e :
  c <> "."%char -> none_of is_sep (String c s') = true ->
  none_of (fun c => Ascii.eqb c "."%char) e = true -> none_of is_sep e = true ->
  splitext (String c s' ++ String "." e) = (String c s', String "." e).
Proof.
  intros Hc Hs He Hes.
  assert (Hall : none_of is_sep (String c s' ++ String "." e) = true).
  { apply none_of_app; [exact Hs |]. simpl. rewrite Hes. reflexivity. }
  apply (splitext_last_dot _ _ (-1) c He); auto; try lia.
  - unfold rfind. rewrite !rfind_by_none; [reflexivity | |];
      (eapply none_of_seps; [| exact Hall]); intros d Hd;
      [apply slash_sep | apply backslash_sep]; exact Hd.
  - simpl. lia.
Qed.

Lemma splitext_dir_name x c s' e :
  c <> "."%char -> none_of is_sep (String c s') = true ->
  none_of (fun c => Ascii.eqb c "."%char) e = true -> none_of is_sep e = true ->
  splitext ((x ++ String "/" (String c s')) ++ String "." e)
  = (x ++ String "/" (String c s'), String "." e).
Proof.
  intros Hc Hs He Hes.
  assert (Hall : none_of is_sep (String c s' ++ String "." e) = true).
  { apply none_of_app; [exact Hs |]. simpl. rewrite Hes. reflexivity. }
  apply (splitext_last_dot _ _ (Z.of_nat (String.length x)) c He).
  - rewrite sapp_assoc. simpl (String "/" _ ++ _)%string. unfold rfind.
    rewrite (rfind_by_last (fun c => Ascii.eqb c "/"%char))
      by (try reflexivity; try lia; (eapply none_of_seps; [| exact Hall]);
          intros d Hd; apply slash_sep; exact Hd).
    rewrite rfind_by_app_none.
    + destruct (rfind_by_range (fun c => Ascii.eqb c "\"%char) x 0) as [-> | Hr]; lia.
    + simpl. apply (none_of_seps _ _ (fun d Hd => backslash_sep d Hd)) in Hall. exact Hall.
  - lia.
  - rewrite PercFacts.length_app. simpl. lia.
  - replace (Z.to_nat (Z.of_nat (String.length x) + 1)) with (String.length x + 1)%nat by lia.
    rewrite get_app_length'. reflexivity.
  - exact Hc.
Qed.

Lemma sep_not_colon sc : is_sep sc = true -> Ascii.eqb sc ":"%char = false.
Proof.
  unfold is_sep. intros H. apply orb_true_iff in H as [H | H];
    apply Ascii.eqb_eq in H; subst; reflexivity.
Qed.

(** [basename] of a path whose last separator, "/" or "\", is followed by [t]. *)
Lemma basename_last_component_sep x sc t :
  is_sep sc = true -> none_of is_sep t = true -> basename (x ++ String sc t) = t.
Proof.
  intros Hsc Ht.
  assert (Hgen : forall y, Perc.drop (Z.to_nat (rfind is_sep (y ++ String sc t) + 1))
                                     (y ++ String sc t) = t).
  { intros y. unfold rfind. rewrite rfind_by_last by (auto; lia).
    replace (Z.to_nat (0 + Z.of_nat (String.length y) + 1)) with (String.length y + 1)%nat by lia.
    rewrite PercFacts.drop_app_plus. reflexivity. }
  unfold basename.
  destruct x as [| a [| b x]].
  - change ("" ++ String sc t)%string with (String sc t).
    destruct t as [| c2 t].
    + exact (Hgen "").
    + cbv beta iota. rewrite Hsc. simpl negb. rewrite andb_false_r. exact (Hgen "").
  - change (String a "" ++ String sc t)%string with (String a (String sc t)).
    cbv beta iota. rewrite (sep_not_colon sc Hsc). simpl andb.
    exact (Hgen (String a "")).
  - change ((String a (String b x)) ++ String sc t)%string
      with (String a (String b (x ++ String sc t))).
    cbv beta iota. destruct (Ascii.eqb b ":"%char && negb (is_sep a)).
    + apply Hgen.
    + exact (Hgen (String a (String b x))).
Qed.

(** [splitext] of [<x><sep><stem>.<e>] with either separator. *)
Lemma splitext_dir_name_sep x sc c s' e :
  is_sep sc = true ->
  c <> "."%char -> none_of is_sep (String c s') = true ->
  none_of (fun c => Ascii.eqb c "."%char) e = true -> none_of is_sep e = true ->
  splitext ((x ++ String sc (String c s')) ++ String "." e)
  = (x ++ String sc (String c s'), String "." e).
Proof.
  intros Hsc Hc Hs He Hes.
  assert (Hall : none_of is_sep (String c s' ++ String "." e) = true).
  { apply none_of_app; [exact Hs |]. simpl. rewrite Hes. reflexivity. }
  apply (splitext_last_dot _ _ (Z.of_nat (String.length x)) c He).
  - rewrite sapp_assoc. simpl (String sc _ ++ _)%string. unfold rfind.
    unfold is_sep in Hsc. apply orb_true_iff in Hsc as [H | H]; apply Ascii.eqb_eq in H; subst sc.
    + rewrite (rfind_by_last (fun c => Ascii.eqb c "\"%char))
        by (try reflexivity; try lia; (eapply none_of_seps; [| exact Hall]);
            intros d Hd; apply backslash_sep; exact Hd).
      rewrite rfind_by_app_none.
      * destruct (rfind_by_range (fun c => Ascii.eqb c "/"%char) x 0) as [-> | Hr]; lia.
      * simpl. apply (none_of_seps _ _ (fun d Hd => slash_sep d Hd)) in Hall. exact Hall.
    + rewrite (rfind_by_last (fun c => Ascii.eqb c "/"%char))
        by (try reflexivity; try lia; (eapply none_of_seps; [| exact Hall]);
            intros d Hd; apply slash_sep; exact Hd).
      rewrite rfind_by_app_none.
      * destruct (rfind_by_range (fun c => Ascii.eqb c "\"%char) x 0) as [-> | Hr]; lia.
      * simpl. apply (none_of_seps _ _ (fun d Hd => backslash_sep d Hd)) in Hall. exact Hall.
  - lia.
  - rewrite PercFacts.length_app. simpl. lia.
  - replace (Z.to_nat (Z.of_nat (String.length x) + 1)) with (String.length x + 1)%nat by lia.
    rewrite get_app_length'. reflexivity.
  - exact Hc.
Qed.

End PathFacts.

Module DestFacts.
Import Py Classify.

Lemma lstrip_upto x c z :
  is_space c = false -> exists x', lstrip (x ++ String c z) = (x' ++ String c z)%string.
Proof.
  intros Hc. induction x as [| a x IH]; simpl.
  - rewrite Hc. exists ""; reflexivity.
  - destruct (is_space a); [exact IH | exists (String a x); reflexivity].
Qed.

Lemma rstrip_all_spaces w :
  NtPath.none_of (fun c => negb (is_space c)) w = true -> rstrip w = "".
Proof.
  induction w as [| c w IH]; simpl; [reflexivity |].
  intros H. apply andb_true_iff in H as [H1 H2]. rewrite IH by exact H2.
  rewrite negb_involutive in H1. rewrite H1. reflexivity.
Qed.

Lemma rstrip_app_spaces y w :
  NtPath.none_of (fun c => negb (is_space c)) w = true -> rstrip (y ++ w) = rstrip y.
Proof.
  intros Hw. induction y as [| a y IH]; simpl.
  - apply rstrip_all_spaces, Hw.
  - rewrite IH. reflexivity.
Qed.

Lemma rstrip_app_r y z : rstrip z <> "" -> rstrip (y ++ z) = (y ++ rstrip z)%string.
Proof.
  intros Hz. induction y as [| a y IH]; simpl; [reflexivity |].
  rewrite IH. destruct y; simpl; [destruct (rstrip z); [congruence | reflexivity] | reflexivity].
Qed.

Lemma substring0_long s m : (String.length s <= m)%nat -> substring 0 m s = s.
Proof.
  revert m. induction s as [| c s IH]; intros m Hm; destruct m; simpl in *;
    try reflexivity; try lia.
  rewrite IH by lia. reflexivity.
Qed.

Lemma after_first_destination R :
  after_first "Destination:" ("[download] Destination: " ++ R) = Some (String " " R).
Proof. cbn. rewrite substring0_long by lia. reflexivity. Qed.

Lemma dest_fname_line dir c s' ext eol :
  rstrip ext = ext -> ext <> "" ->
  NtPath.none_of (fun d => negb (is_space d)) eol = true ->
  exists x', dest_fname ("[download] Destination: " ++ dir ++ "/" ++ String c s' ++ ext ++ eol)
             = Some ((x' ++ String "/" (String c s')) ++ ext)%string.
Proof.
  intros Hr Hne Heol. unfold dest_fname. rewrite after_first_destination.
  unfold option_map, strip.
  change (String " " (dir ++ "/" ++ String c s' ++ ext ++ eol))
    with (String " " dir ++ String "/" (String c s' ++ ext ++ eol))%string.
  destruct (lstrip_upto (String " " dir) "/" (String c s' ++ ext ++ eol) eq_refl) as [x' Hx].
  rewrite Hx. exists x'.
  replace (x' ++ String "/" (String c s' ++ ext ++ eol))%string
    with ((x' ++ String "/" (String c s')) ++ (ext ++ eol))%string
    by (rewrite PathFacts.sapp_assoc; reflexivity).
  rewrite rstrip_app_r; rewrite rstrip_app_spaces, Hr by exact Heol; [reflexivity | exact Hne].
Qed.

Lemma ext_and_title x c s' e :
  c <> "."%char -> NtPath.none_of NtPath.is_sep (String c s') = true ->
  NtPath.none_of (fun c => Ascii.eqb c "."%char) e = true ->
  NtPath.none_of NtPath.is_sep e = true ->
  ext_of ((x ++ String "/" (String c s')) ++ String "." e) = lower (String "." e) /\
  title_of ((x ++ String "/" (String c s')) ++ String "." e) = String c s'.
Proof.
  intros Hc Hs He Hes. split.
  - unfold ext_of. rewrite PathFacts.splitext_dir_name by assumption. reflexivity.
  - unfold title_of. rewrite PathFacts.sapp_assoc. simpl (String "/" _ ++ _)%string.
    rewrite PathFacts.basename_last_component.
    + change (String c (s' ++ String "." e)) with (String c s' ++ String "." e)%string.
      rewrite PathFacts.splitext_name by assumption. reflexivity.
    + apply (PathFacts.none_of_app _ (String c s')); [exact Hs |].
      simpl. rewrite Hes. reflexivity.
Qed.

Lemma contains_destination R :
  contains "[download] Destination:" ("[download] Destination: " ++ R) = true.
Proof. reflexivity. Qed.

Lemma sep_not_space sc : NtPath.is_sep sc = true -> is_space sc = false.
Proof.
  unfold NtPath.is_sep. intros H. apply orb_true_iff in H as [H | H];
    apply Ascii.eqb_eq in H; subst; reflexivity.
Qed.

Lemma dest_fname_line_sep dir sc c s' ext eol :
  NtPath.is_sep sc = true -> rstrip ext = ext -> ext <> "" ->
  NtPath.none_of (fun d => negb (is_space d)) eol = true ->
  exists x', dest_fname ("[download] Destination: " ++ dir ++ String sc (String c s' ++ ext ++ eol))
             = Some ((x' ++ String sc (String c s')) ++ ext)%string.
Proof.
  intros Hsc Hr Hne Heol. unfold dest_fname. rewrite after_first_destination.
  unfold option_map, strip.
  change (String " " (dir ++ String sc (String c s' ++ ext ++ eol)))
    with (String " " dir ++ String sc (String c s' ++ ext ++ eol))%string.
  destruct (lstrip_upto (String " " dir) sc (String c s' ++ ext ++ eol) (sep_not_space sc Hsc))
    as [x' Hx].
  rewrite Hx. exists x'.
  replace (x' ++ String sc (String c s' ++ ext ++ eol))%string
    with ((x' ++ String sc (String c s')) ++ (ext ++ eol))%string
    by (rewrite PathFacts.sapp_assoc; reflexivity).
  rewrite rstrip_app_r; rewrite rstrip_app_spaces, Hr by exact Heol; [reflexivity | exact Hne].
Qed.

Lemma ext_and_title_sep x sc c s' e :
  NtPath.is_sep sc = true ->
  c <> "."%char -> NtPath.none_of NtPath.is_sep (String c s') = true ->
  NtPath.none_of (fun c => Ascii.eqb c "."%char) e = true ->
  NtPath.none_of NtPath.is_sep e = true ->
  ext_of ((x ++ String sc (String c s')) ++ String "." e) = lower (String "." e) /\
  title_of ((x ++ String sc (String c s')) ++ String "." e) = String c s'.
Proof.
  intros Hsc Hc Hs He Hes. split.
  - unfold ext_of. rewrite PathFacts.splitext_dir_name_sep by assumption. reflexivity.
  - unfold title_of. rewrite PathFacts.sapp_assoc. simpl (String sc _ ++ _)%string.
    rewrite PathFacts.basename_last_component_sep by
      (first [exact Hsc | apply (PathFacts.none_of_app _ (String c s')); [exact Hs |];
                          simpl; rewrite Hes; reflexivity]).
    change (String c (s' ++ String "." e)) with (String c s' ++ String "." e)%string.
    rewrite PathFacts.splitext_name by assumption. reflexivity.
Qed.

(** What the two classifiers make of any line holding
    "[download] Destination:": the file name is the stripped text after
    the first "Destination:"; its lower-cased extension picks the phase
    and stage (kept for any other extension) and its base name without
    extension is the title. *)
Lemma destination_line_general current_type current_stage line :
  contains "[download] Destination:" line = true ->
  exists rest, after_first "Destination:" line = Some rest /\
    let fname := strip rest in
    fst (single_line_cb current_type line)
      = (if mem (ext_of fname) audio_exts then "audio"
         else if mem (ext_of fname) video_exts then "video" else current_type) /\
    In (SetTitle (title_of fname)) (snd (single_line_cb current_type line)) /\
    fst (batch_line_cb current_stage line)
      = (if mem (ext_of fname) video_exts then "Video"
         else if mem (ext_of fname) audio_exts then "Audio" else current_stage).
Proof.
  intros H.
  pose proof (SubstrFacts.contains_after_first "Destination:" line
                (SubstrFacts.contains_suffix "[download] " "Destination:" line H)) as Ha.
  destruct (after_first "Destination:" line) as [rest |] eqn:Ea; [| congruence].
  exists rest. split; [reflexivity |]. cbv zeta.
  unfold single_line_cb, batch_line_cb, dest_fname. rewrite H, Ea.
  cbn [option_map]. cbn beta iota zeta.
  destruct (mem (ext_of (strip rest)) audio_exts), (mem (ext_of (strip rest)) video_exts);
    cbn beta iota;
    (split; [reflexivity | split; [| reflexivity]]);
    apply in_or_app; right; apply in_or_app; left; simpl; auto.
Qed.

Lemma batch_sets_no_title current_stage line t :
  ~ In (SetTitle t) (snd (batch_line_cb current_stage line)).
Proof.
  unfold batch_line_cb.
  destruct (contains "[download] Destination:" line);
    [| destruct (contains "[Merger]" line);
       [| destruct (contains "has already been downloaded" line)]];
    cbn beta iota zeta; try (destruct (Perc.search line)); simpl; intuition discriminate.
Qed.

(** C4 (counterexample): yt-dlp's audio extraction announces its output
    as [[ExtractAudio] Destination: ...]; the line contains [Destination:]
    but not [[download] Destination:], so the single-download classifier
    keeps the phase [video] and sets no title, and the batch classifier
    keeps its stage. *)
Lemma extract_audio_destination_ignored :
  single_line_cb "video" "[ExtractAudio] Destination: /x/y/Song.mp3"
  = ("video", [SetStatus "Extracting Audio...";
               AppendLog "[ExtractAudio] Destination: /x/y/Song.mp3"]) /\
  batch_line_cb "Video" "[ExtractAudio] Destination: /x/y/Song.mp3"
  = ("Video", [AppendLog "[ExtractAudio] Destination: /x/y/Song.mp3"]).
Proof. split; reflexivity. Qed.

(** C4 (amended): for every line holding "[download] Destination:" the
    file name is the stripped text after the first "Destination:"; the
    single-download classifier sets the phase to [audio] when the
    lower-cased [ntpath] extension of that name is an audio extension, to
    [video] when it is a video extension, and keeps the phase otherwise,
    and sets the title to the [ntpath] base name without extension; the
    batch classifier sets its stage to [Video] or [Audio] the same way.
    On a line [[download] Destination: <dir><sep><stem>.<e>] followed by
    trailing white space, with [sep] either "/" or "\", [stem] non-empty,
    not starting with a dot and without separator, and [e] without dot,
    separator or trailing space, the title is [stem] and the phase and
    stage follow the lower-cased [.<e>].  The batch classifier never sets
    a title. *)
Theorem download_destination_sets_phase_and_title :
  (forall (current_type current_stage line : string),
     contains "[download] Destination:" line = true ->
     exists rest, after_first "Destination:" line = Some rest /\
       let fname := strip rest in
       fst (single_line_cb current_type line)
         = (if mem (ext_of fname) audio_exts then "audio"
            else if mem (ext_of fname) video_exts then "video" else current_type) /\
       In (SetTitle (title_of fname)) (snd (single_line_cb current_type line)) /\
       fst (batch_line_cb current_stage line)
         = (if mem (ext_of fname) video_exts then "Video"
            else if mem (ext_of fname) audio_exts then "Audio" else current_stage)) /\
  (forall (current_type current_stage dir : string) (sc c : ascii) (s' e eol : string),
     NtPath.is_sep sc = true ->
     c <> "."%char -> NtPath.none_of NtPath.is_sep (String c s') = true ->
     NtPath.none_of (fun d => Ascii.eqb d "."%char) e = true ->
     NtPath.none_of NtPath.is_sep e = true ->
     rstrip (String "." e) = String "." e ->
     NtPath.none_of (fun d => negb (is_space d)) eol = true ->
     let line := ("[download] Destination: " ++ dir ++ String sc (String c s' ++ String "." e ++ eol))%string in
     let ext := lower (String "." e) in
     fst (single_line_cb current_type line)
       = (if mem ext audio_exts then "audio" else if mem ext video_exts then "video" else current_type) /\
     In (SetTitle (String c s')) (snd (single_line_cb current_type line)) /\
     fst (batch_line_cb current_stage line)
       = (if mem ext video_exts then "Video" else if mem ext audio_exts then "Audio" else current_stage)) /\
  (forall (current_stage line t : string), ~ In (SetTitle t) (snd (batch_line_cb current_stage line))).
Proof.
  split; [| split].
  - exact destination_line_general.
  - intros ct cs dir sc c s' e eol Hsc Hc Hs He Hes Hr Heol line ext.
    destruct (dest_fname_line_sep dir sc c s' (String "." e) eol Hsc Hr ltac:(discriminate) Heol)
      as [x' Hd].
    destruct (ext_and_title_sep x' sc c s' e Hsc Hc Hs He Hes) as [Hext Htit].
    destruct (destination_line_general ct cs line (contains_destination _)) as [rest [Ea Hg]].
    unfold dest_fname in Hd. fold line in Hd. rewrite Ea in Hd. injection Hd as Hf.
    cbv zeta in Hg. rewrite Hf, Hext, Htit in Hg. exact Hg.
  - intros cs line t. apply batch_sets_no_title.
Qed.

Lemma download_destination_sets_phase_and_title_witness :
  let l1 := ("[download] Destination: C:\x\My Video.MP4" ++ String "010" "")%string in
  let l2 := "[download] Destination: /x/y/Song.mp3" in
  let l3 := "[download] Destination: /x/y/notes.txt" in
  (fst (single_line_cb "" l1) = "video" /\
   In (SetTitle "My Video") (snd (single_line_cb "" l1)) /\
   fst (batch_line_cb "" l1) = "Video") /\
  (fst (single_line_cb "video" l2) = "audio" /\
   In (SetTitle "Song") (snd (single_line_cb "video" l2)) /\
   fst (batch_line_cb "Video" l2) = "Audio") /\
  (fst (single_line_cb "audio" l3) = "audio" /\
   In (SetTitle "notes") (snd (single_line_cb "audio" l3)) /\
   fst (batch_line_cb "Audio" l3) = "Audio").
Proof.
  destruct download_destination_sets_phase_and_title as [Hg [Hs _]].
  split; [| split].
  - pose proof (Hs "" "" "C:\x" "\"%char "M"%char "y Video" "MP4" (String "010" "")
                  eq_refl ltac:(discriminate) eq_refl eq_refl eq_refl eq_refl eq_refl) as H.
    cbv zeta in H. destruct H as (H1 & H2 & H3).
    split; [etransitivity; [exact H1 | vm_compute; reflexivity] |].
    split; [exact H2 | etransitivity; [exact H3 | vm_compute; reflexivity]].
  - pose proof (Hs "video" "Video" "/x/y" "/"%char "S"%char "ong" "mp3" ""
                  eq_refl ltac:(discriminate) eq_refl eq_refl eq_refl eq_refl eq_refl) as H.
    cbv zeta in H. destruct H as (H1 & H2 & H3).
    split; [etransitivity; [exact H1 | vm_compute; reflexivity] |].
    split; [exact H2 | etransitivity; [exact H3 | vm_compute; reflexivity]].
  - destruct (Hg "audio" "Audio" "[download] Destination: /x/y/notes.txt" eq_refl)
      as [rest [Ea H]].
    vm_compute in Ea. injection Ea as Er. subst rest.
    cbv zeta in H. destruct H as (H1 & H2 & H3).
    split; [etransitivity; [exact H1 | vm_compute; reflexivity] |].
    split; [exact H2 | etransitivity; [exact H3 | vm_compute; reflexivity]].
Defined.

End DestFacts.

Module StripFacts.
Import Py.

Lemma rstrip_idem s : rstrip (rstrip s) = rstrip s.
Proof.
  induction s as [| c s IH]; [reflexivity |]. simpl.
  destruct (rstrip s) as [| d r] eqn:E.
  - destruct (is_space c) eqn:Ec; simpl; [reflexivity | rewrite Ec; reflexivity].
  - change (rstrip (String c (String d r)))
      with (match rstrip (String d r) with
            | EmptyString => if is_space c then EmptyString else String c EmptyString
            | r' => String c r' end).
    rewrite IH. reflexivity.
Qed.

Lemma rstrip_nonspace_head c s :
  is_space c = false -> exists r, rstrip (String c s) = String c r.
Proof.
  intros Hc. simpl. destruct (rstrip s) as [| d r].
  - rewrite Hc. exists ""; reflexivity.
  - exists (String d r); reflexivity.
Qed.

Lemma lstrip_head s :
  lstrip s = "" \/ exists c r, lstrip s = String c r /\ is_space c = false.
Proof.
  induction s as [| c s IH]; simpl; [left; reflexivity |].
  destruct (is_space c) eqn:Ec; [exact IH | right; exists c, s; auto].
Qed.

Lemma lstrip_nonspace_head c s : is_space c = false -> lstrip (String c s) = String c s.
Proof. intros Hc. simpl. rewrite Hc. reflexivity. Qed.

Lemma strip_idem s : strip (strip s) = strip s.
Proof.
  unfold strip. destruct (lstrip_head s) as [-> | (c & r & -> & Hc)]; [reflexivity |].
  destruct (rstrip_nonspace_head c r Hc) as [r' Hr]. rewrite Hr.
  rewrite lstrip_nonspace_head by exact Hc. rewrite <- Hr. apply rstrip_idem.
Qed.

Lemma strip_nonspace_head_nonempty c s : is_space c = false -> strip (String c s) <> "".
Proof.
  intros Hc. unfold strip. rewrite lstrip_nonspace_head by exact Hc.
  destruct (rstrip_nonspace_head c s Hc) as [r ->]. discriminate.
Qed.

Lemma none_of_lstrip f s : NtPath.none_of f s = true -> NtPath.none_of f (lstrip s) = true.
Proof.
  induction s as [| c s IH]; simpl; [auto |].
  intros H. destruct (is_space c); [apply IH; apply andb_true_iff in H; tauto | exact H].
Qed.

Lemma none_of_rstrip f s : NtPath.none_of f s = true -> NtPath.none_of f (rstrip s) = true.
Proof.
  induction s as [| c s IH]; simpl; [auto |].
  intros H. apply andb_true_iff in H as [H1 H2]. specialize (IH H2).
  destruct (rstrip s) as [| d r].
  - destruct (is_space c); simpl; [reflexivity | rewrite H1; reflexivity].
  - simpl. simpl in IH. rewrite H1, IH. reflexivity.
Qed.

Lemma none_of_strip f s : NtPath.none_of f s = true -> NtPath.none_of f (strip s) = true.
Proof. intros H. apply none_of_rstrip, none_of_lstrip, H. Qed.

(** A string without white space is its own [strip]. *)
Lemma rstrip_no_space s : NtPath.none_of is_space s = true -> rstrip s = s.
Proof.
  induction s as [| c s IH]; simpl; [reflexivity |].
  intros H. apply andb_true_iff in H as [H1 H2]. apply negb_true_iff in H1.
  rewrite IH by exact H2. destruct s; [rewrite H1 |]; reflexivity.
Qed.

Lemma strip_no_space s : NtPath.none_of is_space s = true -> strip s = s.
Proof.
  intros H. unfold strip. destruct s as [| c s']; [reflexivity |].
  pose proof H as H'. simpl in H'. apply andb_true_iff in H' as [H1 _].
  apply negb_true_iff in H1.
  rewrite lstrip_nonspace_head by exact H1. apply rstrip_no_space, H.
Qed.

End StripFacts.

Module RowsFacts.
Import Py PyStr Rows StripFacts.

Lemma linebreak_space c : is_linebreak c = true -> is_space c = true.
Proof.
  unfold is_linebreak. simpl existsb. intros H.
  repeat (apply orb_true_iff in H; destruct H as [H | H]); try discriminate;
    apply Nat.eqb_eq in H; unfold is_space; rewrite H; reflexivity.
Qed.

Lemma splitlines_go_lines :
  forall n s cur, (String.length s <= n)%nat ->
  NtPath.none_of is_linebreak cur = true ->
  Forall (fun l => NtPath.none_of is_linebreak l = true) (splitlines_go s cur).
Proof.
  induction n as [| n IH]; intros s cur Hn Hcur.
  - destruct s; [simpl; destruct (String.eqb cur ""); auto | simpl in Hn; lia].
  - destruct s as [| c s']; simpl.
    + destruct (String.eqb cur ""); auto.
    + simpl in Hn. destruct (is_linebreak c) eqn:Hc.
      * constructor; [exact Hcur |].
        destruct (Ascii.eqb c "013"%char); [destruct s' as [| d s''] |];
          try (apply IH; [simpl in *; lia | reflexivity]).
        destruct (Ascii.eqb d "010"%char); apply IH; simpl in *; try lia; reflexivity.
      * apply IH; [lia |]. apply PathFacts.none_of_app; [exact Hcur |]. simpl. rewrite Hc. reflexivity.
Qed.

Lemma splitlines_go_head s cur :
  cur <> "" -> exists x rest, splitlines_go s cur = (cur ++ x)%string :: rest.
Proof.
  revert cur. induction s as [| c s IH]; intros cur Hcur; simpl.
  - destruct (String.eqb cur "") eqn:E; [apply String.eqb_eq in E; congruence |].
    exists "", []. rewrite PercFacts.append_empty_r. reflexivity.
  - destruct (is_linebreak c).
    + eexists "", _. rewrite PercFacts.append_empty_r. reflexivity.
    + destruct (IH (cur ++ String c "")%string) as (x & rest & ->).
      * destruct cur; discriminate.
      * exists (String c x), rest. rewrite PathFacts.sapp_assoc. reflexivity.
Qed.

Lemma splitlines_go_app u s cur :
  NtPath.none_of is_linebreak u = true ->
  splitlines_go (u ++ s) cur = splitlines_go s (cur ++ u).
Proof.
  revert cur. induction u as [| c u IH]; intros cur H; simpl.
  - rewrite PercFacts.append_empty_r. reflexivity.
  - simpl in H. apply andb_true_iff in H as [H1 H2]. apply negb_true_iff in H1.
    rewrite H1, IH by exact H2. rewrite PathFacts.sapp_assoc. reflexivity.
Qed.

Lemma splitlines_join urls :
  urls <> [] ->
  Forall (fun u => u <> "" /\ NtPath.none_of is_linebreak u = true) urls ->
  splitlines (join (String "010" "") urls) = urls.
Proof.
  intros Hne Hall. unfold splitlines.
  induction urls as [| u l IH]; [congruence |].
  inversion Hall as [| ? ? [Hu Hlb] Hl]; subst.
  destruct l as [| u' l'].
  - simpl join. rewrite <- (PercFacts.append_empty_r u) at 1.
    rewrite splitlines_go_app by exact Hlb. simpl.
    destruct u; [congruence | reflexivity].
  - change (join (String "010" "") (u :: u' :: l'))
      with (u ++ String "010" "" ++ join (String "010" "") (u' :: l'))%string.
    rewrite splitlines_go_app by exact Hlb. simpl.
    f_equal. apply IH; [discriminate | exact Hl].
Qed.

Lemma substring0_length n s : (n <= String.length s)%nat -> String.length (substring 0 n s) = n.
Proof.
  revert n. induction s as [| c s IH]; intros n Hn; destruct n; simpl in *; try lia.
  rewrite IH by lia. reflexivity.
Qed.

(** [BatchRow.set_title] keeps the full title in [title_val]; the label
    shows the title when it has at most 60 characters and otherwise its
    first 57 characters followed by "...", so the label never exceeds 60
    characters. *)
Theorem set_title_label_fits title :
  fst (set_title title) = title /\
  (String.length (snd (set_title title)) <= 60)%nat /\
  ((String.length title <= 60)%nat -> snd (set_title title) = title) /\
  ((60 < String.length title)%nat ->
     snd (set_title title) = (substring 0 57 title ++ "...")%string /\
     String.length (snd (set_title title)) = 60%nat).
Proof.
  unfold set_title; simpl. split; [reflexivity |].
  destruct (Nat.ltb_spec 60 (String.length title)) as [H | H].
  - rewrite PercFacts.length_app, substring0_length by lia. simpl.
    split; [lia | split; [lia | auto]].
  - split; [lia | split; [reflexivity | lia]].
Qed.

Lemma strip_nonempty_head s :
  strip s <> "" -> exists c r, strip s = String c r /\ is_space c = false.
Proof.
  unfold strip. intros H. destruct (lstrip_head s) as [E | (c & r & E & Hc)].
  - rewrite E in H. simpl in H. congruence.
  - rewrite E. destruct (rstrip_nonspace_head c r Hc) as [r' ->]. eauto.
Qed.

(** [add_batch_links]: the rows afterwards are the old rows followed by
    the added ones; every added URL is non-empty, has no white space at
    either end and no line break; and whenever the text box holds a
    character other than white space the box is cleared and at least one
    row is added (the [if not new_urls: return] branch is never taken). *)
Theorem add_batch_links_adds_clean_urls content items :
  let '(cleared, items', added) := add_batch_links content items in
  items' = (items ++ added)%list /\
  Forall (fun u => u <> "" /\ strip u = u /\ NtPath.none_of is_linebreak u = true) added /\
  (strip content <> "" -> cleared = true /\ added <> []).
Proof.
  unfold add_batch_links.
  destruct (String.eqb (strip content) "") eqn:Et.
  - apply String.eqb_eq in Et. rewrite app_nil_r. split; [reflexivity | split; [constructor | congruence]].
  - assert (Hne : strip content <> "") by (apply String.eqb_neq; exact Et).
    set (L := splitlines (strip content)).
    assert (Hforall : Forall (fun u => u <> "" /\ strip u = u /\ NtPath.none_of is_linebreak u = true)
              (map strip (filter (fun l => negb (String.eqb (strip l) "")) L))).
    { apply Forall_forall. intros u Hin. apply in_map_iff in Hin as [l [<- Hl]].
      apply filter_In in Hl as [HlL Hf]. apply negb_true_iff, String.eqb_neq in Hf.
      split; [exact Hf | split; [apply strip_idem |]].
      apply none_of_strip.
      pose proof (splitlines_go_lines (String.length (strip content)) (strip content) ""
                    (le_n _) eq_refl) as HL.
      rewrite Forall_forall in HL. exact (HL l HlL). }
    assert (Hcons : map strip (filter (fun l => negb (String.eqb (strip l) "")) L) <> []).
    { destruct (strip_nonempty_head content Hne) as (c & r & Hcr & Hc).
      unfold L. rewrite Hcr. unfold splitlines. simpl.
      assert (Hlb : is_linebreak c = false).
      { destruct (is_linebreak c) eqn:E; [| reflexivity].
        rewrite (linebreak_space c E) in Hc. discriminate. }
      rewrite Hlb. destruct (splitlines_go_head r (String c "") ltac:(discriminate)) as (x & rest & ->).
      simpl. destruct (String.eqb (strip (String c x)) "") eqn:Ex.
      - apply String.eqb_eq in Ex. exfalso. exact (strip_nonspace_head_nonempty c x Hc Ex).
      - discriminate. }
    destruct (map strip (filter (fun l => negb (String.eqb (strip l) "")) L)) as [| u us] eqn:En.
    + congruence.
    + split; [reflexivity | split; [exact Hforall | split; [reflexivity | discriminate]]].
Qed.

(** Round trip of [add_batch_links]: pasting URLs (non-empty, without
    white space) one per line, as the text box returns them with its
    trailing newline, adds exactly those URLs, in order. *)
Theorem add_batch_links_one_per_line urls items :
  urls <> [] ->
  Forall (fun u => u <> "" /\ NtPath.none_of is_space u = true) urls ->
  add_batch_links (join (String "010" "") urls ++ String "010" "") items
  = (true, (items ++ urls)%list, urls).
Proof.
  intros Hne Hall.
  assert (Hlb : Forall (fun u => u <> "" /\ NtPath.none_of is_linebreak u = true) urls).
  { eapply Forall_impl; [| exact Hall]. intros u [Hu Hs]. split; [exact Hu |].
    eapply PathFacts.none_of_weaken; [| exact Hs]. exact linebreak_space. }
  assert (Hj : strip (join (String "010" "") urls ++ String "010" "") = join (String "010" "") urls).
  { unfold strip.
    assert (Hr : rstrip (join (String "010" "") urls) = join (String "010" "") urls).
    { clear Hlb. induction urls as [| u l IH]; [congruence |].
      inversion Hall as [| ? ? [Hu Hs] Hl]; subst.
      destruct l as [| u' l']; [apply rstrip_no_space, Hs |].
      change (join (String "010" "") (u :: u' :: l'))
        with (u ++ String "010" (join (String "010" "") (u' :: l')))%string.
      assert (HJ : join (String "010" "") (u' :: l') <> "").
      { inversion Hl as [| ? ? [Hu' _] _]; subst.
        destruct u'; [congruence |]. destruct l'; discriminate. }
      rewrite DestFacts.rstrip_app_r; cbn [rstrip]; rewrite IH by (discriminate || exact Hl);
        destruct (join (String "010" "") (u' :: l')); try contradiction; [reflexivity | discriminate]. }
    assert (Hhead : exists c s0, join (String "010" "") urls = String c s0 /\ is_space c = false).
    { destruct urls as [| u l]; [congruence |].
      inversion Hall as [| ? ? [Hu Hs] _]; subst.
      destruct u as [| c u']; [congruence |].
      simpl in Hs. apply andb_true_iff in Hs as [Hc _]. apply negb_true_iff in Hc.
      destruct l; eexists c, _; split; [reflexivity | exact Hc | reflexivity | exact Hc]. }
    destruct Hhead as (c & s0 & Hjs & Hc). rewrite Hjs.
    change (String c s0 ++ String "010" "")%string with (String c (s0 ++ String "010" "")).
    rewrite lstrip_nonspace_head by exact Hc.
    change (String c (s0 ++ String "010" "")) with (String c s0 ++ String "010" "")%string.
    rewrite DestFacts.rstrip_app_spaces by reflexivity. rewrite <- Hjs. exact Hr. }
  unfold add_batch_links. rewrite Hj.
  destruct (String.eqb (join (String "010" "") urls) "") eqn:Ee.
  { apply String.eqb_eq in Ee. destruct urls as [| u l]; [congruence |].
    inversion Hall as [| ? ? [Hu _] _]; subst. destruct u; [congruence |].
    destruct l; discriminate. }
  rewrite splitlines_join by assumption.
  assert (Hid : map strip (filter (fun l => negb (String.eqb (strip l) "")) urls) = urls).
  { clear Hne Hlb Hj Ee. induction urls as [| u l IH]; [reflexivity |].
    inversion Hall as [| ? ? [Hu Hs] Hl]; subst. simpl.
    rewrite (strip_no_space u Hs). destruct (String.eqb u "") eqn:E.
    - apply String.eqb_eq in E. congruence.
    - simpl. rewrite (strip_no_space u Hs), IH by exact Hl. reflexivity. }
  rewrite Hid. destruct urls; [congruence | reflexivity].
Qed.

Lemma filter_keep_all (f : nat -> bool) l : (forall x, In x l -> f x = true) -> filter f l = l.
Proof.
  induction l as [| y l IH]; intros H; simpl; [reflexivity |].
  rewrite (H y (or_introl eq_refl)), IH; [reflexivity |]. intros x Hx. apply H. right; exact Hx.
Qed.

Lemma remove_first_filter r items :
  NoDup items -> In r items -> remove_first r items = filter (fun x => negb (Nat.eqb r x)) items.
Proof.
  induction items as [| y l IH]; intros Hnd Hin; [destruct Hin |].
  inversion Hnd as [| ? ? Hy Hl]; subst. simpl.
  destruct (Nat.eqb r y) eqn:E.
  - apply Nat.eqb_eq in E. subst y. simpl. symmetry. apply filter_keep_all.
    intros x Hx. apply negb_true_iff, Nat.eqb_neq. intros ->. exact (Hy Hx).
  - simpl. f_equal. apply IH; [exact Hl |].
    destruct Hin as [-> | Hin]; [rewrite Nat.eqb_refl in E; discriminate | exact Hin].
Qed.

(** [remove_batch_row] on rows without repetition: a row in the list is
    taken out, the others stay in order and the count shown drops by one;
    for a row no longer in the list (its delete button pressed again)
    nothing changes and no [ValueError] is raised. *)
Theorem remove_batch_row_spec (r : nat) items :
  NoDup items ->
  (In r items ->
     remove_batch_row r items = filter (fun x => negb (Nat.eqb r x)) items /\
     ~ In r (remove_batch_row r items) /\
     count_label (remove_batch_row r items) = Py.nat_str (List.length items - 1) ++ " items") /\
  (~ In r items -> remove_batch_row r items = items).
Proof.
  intros Hnd. unfold remove_batch_row. split.
  - intros Hin.
    assert (Hex : existsb (Nat.eqb r) items = true).
    { apply existsb_exists. exists r. split; [exact Hin | apply Nat.eqb_refl]. }
    rewrite Hex, remove_first_filter by assumption.
    split; [reflexivity | split].
    + intros Hf. apply filter_In in Hf as [_ Hf]. rewrite Nat.eqb_refl in Hf. discriminate.
    + unfold count_label. f_equal. f_equal.
      clear Hex. induction items as [| y l IH]; [destruct Hin |].
      inversion Hnd as [| ? ? Hy Hl]; subst. simpl.
      destruct (Nat.eqb r y) eqn:E.
      * apply Nat.eqb_eq in E. subst y. simpl. rewrite filter_keep_all; [lia |].
        intros x Hx. apply negb_true_iff, Nat.eqb_neq. intros ->. exact (Hy Hx).
      * simpl. destruct Hin as [-> | Hin]; [rewrite Nat.eqb_refl in E; discriminate |].
        rewrite IH by assumption. destruct l; [destruct Hin | simpl; lia].
  - intros Hnin. destruct (existsb (Nat.eqb r) items) eqn:Hex; [| reflexivity].
    apply existsb_exists in Hex as [x [Hx Hrx]]. apply Nat.eqb_eq in Hrx. subst x. contradiction.
Qed.

Lemma set_title_label_fits_witness :
  snd (set_title "AAAAAAAAAAAAAAAAAAAAAAAAAAAAAAAAAAAAAAAAAAAAAAAAAAAAAAAAAAAAAAAAAAAAAA") = (substring 0 57 "AAAAAAAAAAAAAAAAAAAAAAAAAAAAAAAAAAAAAAAAAAAAAAAAAAAAAAAAAAAAAAAAAAAAAA" ++ "...")%string /\
  String.length (snd (set_title "AAAAAAAAAAAAAAAAAAAAAAAAAAAAAAAAAAAAAAAAAAAAAAAAAAAAAAAAAAAAAAAAAAAAAA")) = 60%nat.
Proof.
  destruct (set_title_label_fits "AAAAAAAAAAAAAAAAAAAAAAAAAAAAAAAAAAAAAAAAAAAAAAAAAAAAAAAAAAAAAAAAAAAAAA") as [_ [_ [_ H]]].
  apply H. simpl. lia.
Defined.

Lemma add_batch_links_adds_clean_urls_witness :
  let content := ("  https://y/1" ++ String "010" (String "010" " https://y/2 "))%string in
  fst (fst (add_batch_links content ["https://y/0"])) = true /\
  snd (add_batch_links content ["https://y/0"]) <> [].
Proof.
  intros content.
  pose proof (add_batch_links_adds_clean_urls content ["https://y/0"]) as H.
  destruct (add_batch_links content ["https://y/0"]) as [[cl it] ad].
  destruct H as [_ [_ H]]. apply H. vm_compute. intros E. discriminate E.
Defined.

Lemma add_batch_links_one_per_line_witness :
  add_batch_links (join (String "010" "") ["https://y/1"; "https://y/2"] ++ String "010" "")
    ["https://y/0"]
  = (true, ["https://y/0"; "https://y/1"; "https://y/2"], ["https://y/1"; "https://y/2"]).
Proof.
  apply (add_batch_links_one_per_line ["https://y/1"; "https://y/2"] ["https://y/0"]).
  - discriminate.
  - repeat constructor; discriminate.
Defined.

Lemma remove_batch_row_spec_witness :
  remove_batch_row 2 [1; 2; 3]%nat = [1; 3]%nat /\ remove_batch_row 4 [1; 2; 3]%nat = [1; 2; 3]%nat.
Proof.
  assert (Hnd : NoDup [1; 2; 3]%nat) by (repeat constructor; simpl; intuition discriminate).
  destruct (remove_batch_row_spec 2 [1; 2; 3]%nat Hnd) as [H1 _].
  destruct (remove_batch_row_spec 4 [1; 2; 3]%nat Hnd) as [_ H2].
  split.
  - destruct (H1 (or_intror (or_introl eq_refl))) as [E _]. rewrite E. reflexivity.
  - apply H2. simpl. intuition discriminate.
Defined.

End RowsFacts.

Module MetaFacts.
Import Py Meta StripFacts.

Lemma split1_cons sep c s :
  split1 sep (String c s)
  = if startswith (String c s) sep then Some ("", Perc.drop (String.length sep) (String c s))
    else option_map (fun p => (String c (fst p), snd p)) (split1 sep s).
Proof. reflexivity. Qed.

Lemma split1_app t f :
  NtPath.none_of (fun c => Ascii.eqb c "|"%char) t = true ->
  split1 "|" (t ++ String "|" f) = Some (t, f).
Proof.
  induction t as [| c t IH]; intros H; [simpl; destruct f; reflexivity |].
  simpl in H. apply andb_true_iff in H as [H1 H2]. apply negb_true_iff in H1.
  change (String c t ++ String "|" f)%string with (String c (t ++ String "|" f)).
  rewrite split1_cons. change (startswith (String c (t ++ String "|" f)) "|")
    with (Ascii.eqb "|" c && startswith (t ++ String "|" f) "").
  rewrite Ascii.eqb_sym, H1. simpl andb. cbv iota. rewrite IH by exact H2. reflexivity.
Qed.

Lemma contains_app_r p x y : contains p y = true -> contains p (x ++ y) = true.
Proof.
  induction x as [| c x IH]; intros H; [exact H |].
  simpl. rewrite IH by exact H. apply orb_true_r.
Qed.

Lemma lstrip_keep_app x y : lstrip x = x -> x <> "" -> lstrip (x ++ y) = (x ++ y)%string.
Proof.
  destruct x as [| c x]; intros H Hne; [congruence |].
  simpl in H |- *. destruct (is_space c) eqn:Hc; [| reflexivity].
  exfalso. assert (Hl : (String.length (lstrip x) <= String.length x)%nat).
  { clear. induction x as [| d x IH]; simpl; [lia |]. destruct (is_space d); simpl; lia. }
  rewrite H in Hl. simpl in Hl. lia.
Qed.

(** The line [--print "%(title)s|%(filename)s"] writes, read back: with a
    title holding no [|] and both parts without surrounding white space,
    the row gets that title, and its status is Exists (and the row is
    unchecked) when the predicted file exists, Incomplete when only its
    [.part] or [.ytdl] file exists, and Ready otherwise. *)
Theorem metadata_title_filename_roundtrip (file_exists : string -> bool) title filename :
  NtPath.none_of (fun c => Ascii.eqb c "|"%char) title = true ->
  lstrip title = title -> rstrip title = title ->
  lstrip filename = filename -> rstrip filename = filename ->
  meta_one file_exists (mkMeta true (Some (0%Z, title ++ "|" ++ filename ++ String "010" "")))
  = MTitle title ::
    (if file_exists filename then [MStatus "Exists" "success"; MUncheck]
     else if file_exists (filename ++ ".part") || file_exists (filename ++ ".ytdl")
     then [MStatus "Incomplete" "accent"]
     else [MStatus "Ready" "text_sub"]).
Proof.
  intros Hbar Htl Htr Hfl Hfr.
  assert (Hout : strip (title ++ "|" ++ filename ++ String "010" "") = (title ++ String "|" filename)%string).
  { unfold strip.
    assert (Hl : lstrip (title ++ "|" ++ filename ++ String "010" "")
                 = (title ++ String "|" (filename ++ String "010" ""))%string).
    { destruct title as [| c t]; [reflexivity |]. apply lstrip_keep_app; [exact Htl | discriminate]. }
    rewrite Hl.
    replace (title ++ String "|" (filename ++ String "010" ""))%string
      with ((title ++ String "|" filename) ++ String "010" "")%string
      by (rewrite PathFacts.sapp_assoc; reflexivity).
    rewrite DestFacts.rstrip_app_spaces by reflexivity.
    rewrite DestFacts.rstrip_app_r; cbn [rstrip]; rewrite Hfr;
      destruct filename; try reflexivity; discriminate. }
  unfold meta_one. cbn [alive result negb]. rewrite Z.eqb_refl. rewrite Hout.
  rewrite contains_app_r by (destruct filename; reflexivity). rewrite split1_app by exact Hbar.
  cbv zeta. unfold strip. rewrite Htl, Htr, Hfl, Hfr. reflexivity.
Qed.

(** [_batch_metadata_worker] unchecks a row only when the row is alive,
    its [--print] run returned 0, the stripped output splits at its first
    "|" into a title and a filename, and the stripped filename exists; the
    row then gets exactly that title, the status Exists and the uncheck. *)
Theorem metadata_uncheck_only_existing (file_exists : string -> bool) r :
  In MUncheck (meta_one file_exists r) ->
  exists out t f,
    alive r = true /\ result r = Some (0%Z, out) /\
    split1 "|" (strip out) = Some (t, f) /\ file_exists (strip f) = true /\
    meta_one file_exists r = [MTitle (strip t); MStatus "Exists" "success"; MUncheck].
Proof.
  unfold meta_one. destruct (alive r) eqn:Ea; simpl; [| tauto].
  destruct (result r) as [[rc out] |]; [| simpl; intuition discriminate].
  destruct (Z.eqb_spec rc 0) as [-> | _]; [| simpl; intuition discriminate].
  destruct (contains "|" (strip out)); [| simpl; intuition discriminate].
  destruct (split1 "|" (strip out)) as [[t f] |] eqn:Es; [| simpl; tauto].
  destruct (file_exists (strip f)) eqn:E.
  - intros _. exists out, t, f. auto.
  - destruct (_ || _); simpl; intuition discriminate.
Qed.

Lemma metadata_title_filename_roundtrip_witness :
  meta_one (fun f => String.eqb f "C:/x/My Song.mp4")
    (mkMeta true (Some (0%Z, "My Song" ++ "|" ++ "C:/x/My Song.mp4" ++ String "010" "")))
  = [MTitle "My Song"; MStatus "Exists" "success"; MUncheck].
Proof.
  rewrite (metadata_title_filename_roundtrip (fun f => String.eqb f "C:/x/My Song.mp4")
             "My Song" "C:/x/My Song.mp4"); reflexivity.
Defined.

Lemma metadata_uncheck_only_existing_witness :
  exists out t f,
    alive (mkMeta true (Some (0%Z, " My Song | C:/x/My Song.mp4 "))) = true /\
    result (mkMeta true (Some (0%Z, " My Song | C:/x/My Song.mp4 "))) = Some (0%Z, out) /\
    split1 "|" (strip out) = Some (t, f) /\
    (fun x => String.eqb x "C:/x/My Song.mp4") (strip f) = true /\
    meta_one (fun x => String.eqb x "C:/x/My Song.mp4")
      (mkMeta true (Some (0%Z, " My Song | C:/x/My Song.mp4 ")))
    = [MTitle (strip t); MStatus "Exists" "success"; MUncheck].
Proof.
  apply (metadata_uncheck_only_existing (fun x => String.eqb x "C:/x/My Song.mp4")).
  vm_compute. right; right; left; reflexivity.
Defined.

End MetaFacts.

Module StreamFacts.

Import Runner Stream Inputs.

Lemma stream_loop_lines code lines :
  Forall (fun l => l <> "") lines ->
  forall acc, stream_loop code (map Line lines) acc = (Ret code (String.concat "" (acc ++ lines)), lines).
Proof.
  induction lines as [| l ls IH]; intros Hne acc; simpl.
  - rewrite app_nil_r. reflexivity.
  - inversion Hne as [| ? ? Hl Hls]; subst.
    destruct l as [| c l']; [congruence |].
    rewrite IH by exact Hls. rewrite <- app_assoc. reflexivity.
Qed.

(** [run_process_stream] on a child that prints the non-empty lines
    [lines] and exits with [code]: it returns [code] and all the lines
    joined, and hands every line to the callback, in order. *)
Theorem run_process_stream_collects code lines :
  Forall (fun l => l <> "") lines ->
  run_process_stream (SpawnOk code (map Line lines))
  = (Ret code (String.concat "" lines), lines).
Proof. intros H. exact (stream_loop_lines code lines H []). Qed.

Lemma loop_skip_lines kc (cb : string -> option string) code pre :
  Forall (fun l => l <> "" /\ cb l = None) pre ->
  forall k outs,
  loop kc never (Some cb) k (map Line pre ++ outs) (mkMgr (Some (mkProc code Running)) false)
  = loop kc never (Some cb) (k + List.length pre) outs (mkMgr (Some (mkProc code Running)) false).
Proof.
  induction pre as [| l ls IH]; intros Hpre k outs.
  - simpl. rewrite Nat.add_0_r. reflexivity.
  - inversion Hpre as [| ? ? [Hl Hcb] Hls]; subst.
    destruct l as [| c l']; [congruence |].
    simpl. unfold dispatch. rewrite Hcb.
    replace (k + S (List.length ls))%nat with (S k + List.length ls)%nat by lia.
    apply IH, Hls.
Qed.

(** [DownloadManager.start], never cancelled, on a child printing the
    non-empty lines [lines] (none of which makes the callback raise) and
    exiting with [code]: it returns [(code, "Done")], and the manager is left
    with no process and not cancelled. *)
Theorem start_normal_run kc cb m0 code lines :
  Forall (fun l => l <> "" /\ cb l = None) lines ->
  start kc never (Some cb) m0 (SpawnOk code (map Line lines))
  = ((code, "Done"), mkMgr None false).
Proof.
  intros H. unfold start. rewrite <- (app_nil_r (map Line lines)).
  rewrite (loop_skip_lines kc cb code lines H 0 []). reflexivity.
Qed.

(** An exception raised by the callback of [start] is not swallowed: the
    first non-empty line on which the callback raises [e] ends the run with
    [(1, str(e))], whatever the child prints afterwards, and the manager is
    left with no process. *)
Theorem start_callback_error kc cb m0 code pre l rest e :
  Forall (fun x => x <> "" /\ cb x = None) pre ->
  l <> "" -> cb l = Some e ->
  start kc never (Some cb) m0 (SpawnOk code (map Line pre ++ Line l :: rest))
  = ((1%Z, e), mkMgr None false).
Proof.
  intros Hpre Hl Hcb. unfold start.
  rewrite (loop_skip_lines kc cb code pre Hpre 0 (Line l :: rest)).
  destruct l as [| c l']; [congruence |].
  simpl. unfold dispatch. rewrite Hcb. reflexivity.
Qed.

Lemma run_process_stream_collects_witness :
  run_process_stream (SpawnOk 0 (map Line ["a"; "b"]))
  = (Ret 0 (String.concat "" ["a"; "b"]), ["a"; "b"]).
Proof. apply run_process_stream_collects. repeat constructor; discriminate. Defined.

Lemma start_normal_run_witness :
  start 1 never (Some (fun _ => None)) (mkMgr None true) (SpawnOk 0 (map Line ["a"; "b"]))
  = ((0%Z, "Done"), mkMgr None false).
Proof. apply start_normal_run. repeat constructor; discriminate. Defined.

Lemma start_callback_error_witness :
  let cb := fun l => if String.eqb l "boom" then Some "err" else None in
  start 1 never (Some cb) (mkMgr None false)
    (SpawnOk 0 (map Line ["a"] ++ Line "boom" :: [Line "c"]))
  = ((1%Z, "err"), mkMgr None false).
Proof.
  intros cb. apply start_callback_error.
  - repeat constructor; discriminate.
  - discriminate.
  - reflexivity.
Defined.

End StreamFacts.

Module WorkersFacts.

Import Json Workers.

Lemma assoc_setitem k v kvs k' :
  assoc k' (setitem k v kvs) = if String.eqb k' k then Some v else assoc k' kvs.
Proof.
  induction kvs as [| [k0 v0] kvs IH]; simpl.
  - reflexivity.
  - destruct (String.eqb_spec k k0) as [-> | Hne]; simpl.
    + destruct (String.eqb k' k0); reflexivity.
    + rewrite IH. destruct (String.eqb_spec k' k0) as [-> | Hne'].
      * destruct (String.eqb_spec k0 k); [congruence | reflexivity].
      * reflexivity.
Qed.

Lemma keys_setitem k v kvs :
  map fst (setitem k v kvs) = if has_key k kvs then map fst kvs else (map fst kvs ++ [k])%list.
Proof.
  unfold has_key. induction kvs as [| [k0 v0] kvs IH]; simpl.
  - reflexivity.
  - destruct (String.eqb_spec k k0) as [-> | Hne]; simpl.
    + reflexivity.
    + rewrite IH. destruct (assoc k kvs); reflexivity.
Qed.

(** [d[k] = v] on a dict, then [d.get(k')]: the new value for [k], the old
    value for any other key; the keys keep their order, and a key that was
    missing is added last. *)
Theorem setitem_lookup_and_keys k v kvs :
  (forall k', assoc k' (setitem k v kvs) = if String.eqb k' k then Some v else assoc k' kvs) /\
  map fst (setitem k v kvs) = if has_key k kvs then map fst kvs else (map fst kvs ++ [k])%list.
Proof. split; [intros k'; apply assoc_setitem | apply keys_setitem]. Qed.

Lemma folder_and_tools_saves mk dd field kvs tools msg folder :
  (Py.strip field <> "" /\ folder = Py.strip field) \/
  (Py.strip field = "" /\ get "download_folder" (JStr dd) kvs = JStr folder) ->
  mk folder = true ->
  folder_and_tools mk dd field (JObj kvs) tools msg =
  (WMakeDirs folder :: WSave (JObj (setitem "download_folder" (JStr folder) kvs))
     :: (if tools then [] else [WError msg]),
   if tools then Proceed folder (JObj (setitem "download_folder" (JStr folder) kvs)) else Stopped).
Proof.
  intros Hf Hmk. unfold folder_and_tools.
  destruct Hf as [[Hne ->] | [He Hget]].
  - destruct (String.eqb_spec (Py.strip field) "") as [E | _]; [congruence |].
    rewrite Hmk. destruct tools; reflexivity.
  - rewrite He. cbn [String.eqb]. rewrite Hget, Hmk. destruct tools; reflexivity.
Qed.

(** The single and the batch workers (a URL given, resp. at least one row
    checked) create the download folder and save it in the config as
    [download_folder] before they check for the tools: the folder is the
    stripped folder field, or the stored [download_folder] (default
    [DEFAULT_DOWNLOAD]) when the field is blank. With the tools present they
    go on with that folder and config; without them they show the error and
    stop, the folder already saved. *)
Theorem preludes_save_folder_before_tool_check mk dd url checked field kvs tools folder :
  (Py.strip field <> "" /\ folder = Py.strip field) \/
  (Py.strip field = "" /\ get "download_folder" (JStr dd) kvs = JStr folder) ->
  mk folder = true ->
  let cfg' := JObj (setitem "download_folder" (JStr folder) kvs) in
  (Py.strip url <> "" ->
   single_prelude mk dd url field (JObj kvs) tools =
   (WMakeDirs folder :: WSave cfg' :: (if tools then [] else [WError "Tools missing (yt-dlp/ffmpeg)."]),
    if tools then Proceed folder cfg' else Stopped)) /\
  (In true checked ->
   batch_prelude mk dd checked field (JObj kvs) tools =
   (WMakeDirs folder :: WSave cfg' :: (if tools then [] else [WError "Tools missing."]),
    if tools then Proceed folder cfg' else Stopped)).
Proof.
  intros Hf Hmk cfg'. split.
  - intros Hu. unfold single_prelude.
    destruct (String.eqb_spec (Py.strip url) "") as [E | _]; [congruence |].
    apply folder_and_tools_saves; assumption.
  - intros Hin. unfold batch_prelude.
    assert (Hlen : Nat.eqb (List.length (filter (fun b : bool => b) checked)) 0 = false).
    { apply Nat.eqb_neq. intros H0. apply length_zero_iff_nil in H0.
      assert (Hx : In true (filter (fun b : bool => b) checked)) by (apply filter_In; auto).
      rewrite H0 in Hx. destruct Hx. }
    rewrite Hlen. apply folder_and_tools_saves; assumption.
Qed.

Lemma preludes_save_folder_before_tool_check_witness :
  single_prelude (fun _ => true) "H" "u" "D:/v" (JObj [("download_folder", JStr "x")]) false
  = ([WMakeDirs "D:/v"; WSave (JObj [("download_folder", JStr "D:/v")]);
      WError "Tools missing (yt-dlp/ffmpeg)."], Stopped) /\
  batch_prelude (fun _ => true) "H" [false; true] "" (JObj [("download_folder", JStr "x")]) true
  = ([WMakeDirs "x"; WSave (JObj [("download_folder", JStr "x")])],
     Proceed "x" (JObj [("download_folder", JStr "x")])).
Proof.
  split.
  - destruct (preludes_save_folder_before_tool_check (fun _ => true) "H" "u" [] "D:/v"
                [("download_folder", JStr "x")] false "D:/v") as [H _].
    + left. split; [vm_compute; intros E; discriminate E | reflexivity].
    + reflexivity.
    + exact (H ltac:(vm_compute; intros E; discriminate E)).
  - destruct (preludes_save_folder_before_tool_check (fun _ => true) "H" "" [false; true] ""
                [("download_folder", JStr "x")] true "x") as [_ H].
    + right. split; reflexivity.
    + reflexivity.
    + exact (H ltac:(simpl; auto)).
Defined.

End WorkersFacts.

Module BatchLoopFacts.

Import Runner Batch.

Lemma batch_loop_inv kc cb :
  forall rows idx m completed,
  let '(runs, c, _) := batch_loop kc cb idx rows m completed in
  c = (completed + List.length (filter (fun r => r_rc r =? 0)%Z runs))%nat /\
  map r_idx runs = seq idx (List.length runs) /\
  (List.length runs <= List.length rows)%nat /\
  Forall (fun r => r_status r = if (r_rc r =? 0)%Z then "Done" else if (r_rc r =? -1)%Z then "Cancelled" else "Failed") runs /\
  Forall (fun r => r_rc r <> (-1)%Z) (removelast runs) /\
  runs_follow_rows kc cb rows m runs.
Proof.
  induction rows as [| r rest IH]; intros idx m completed; simpl.
  - repeat split; auto.
  - destruct (cancelled m) eqn:Ecm; [repeat split; simpl; auto; lia |].
    destruct (start kc (ie_sched r) cb (if ie_pre r then mkMgr (process m) true else m) (ie_spawn r))
      as [[rc msg] m'] eqn:Hst.
    destruct (Z.eqb_spec rc 0) as [Hz | Hz].
    + specialize (IH (S idx) m' (S completed)).
      destruct (batch_loop kc cb (S idx) rest m' (S completed)) as [[runs c] mf].
      destruct IH as [Hc [Hi [Hl [Hs [Hn Hf]]]]].
      cbn [filter List.length map r_rc r_idx r_status seq].
      subst rc. cbn [Z.eqb].
      refine (conj _ (conj _ (conj _ (conj _ (conj _ _))))).
      * rewrite Hc. cbn [Datatypes.length]. lia.
      * rewrite Hi. reflexivity.
      * lia.
      * constructor; [reflexivity | exact Hs].
      * destruct runs as [| x runs']; [constructor |].
        change (removelast (mkRun idx 0 "Done" (cancelled m') :: x :: runs'))
          with (mkRun idx 0 "Done" (cancelled m') :: removelast (x :: runs')).
        constructor; [simpl; lia | exact Hn].
      * split; [reflexivity |]. exists msg, m'. split; [reflexivity |]. split; [reflexivity | exact Hf].
    + destruct (Z.eqb_spec rc (-1)) as [Hm | Hm].
      * subst rc.
        refine (conj _ (conj _ (conj _ (conj _ (conj _ _))))).
        -- cbn. lia.
        -- reflexivity.
        -- cbn [List.length]. lia.
        -- constructor; [reflexivity | constructor].
        -- constructor.
        -- split; [reflexivity |]. exists msg, m'. split; [reflexivity |]. split; [reflexivity | destruct rest; exact I].
      * specialize (IH (S idx) m' completed).
        destruct (batch_loop kc cb (S idx) rest m' completed) as [[runs c] mf].
        destruct IH as [Hc [Hi [Hl [Hs [Hn Hf]]]]].
        cbn [filter List.length map r_rc r_idx r_status seq].
        apply Z.eqb_neq in Hz. rewrite Hz.
        refine (conj _ (conj _ (conj _ (conj _ (conj _ _))))).
        -- rewrite Hc. cbn [filter r_rc]. lia.
        -- rewrite Hi. reflexivity.
        -- lia.
        -- constructor; [cbn [r_status r_rc]; rewrite Hz; apply Z.eqb_neq in Hm; rewrite Hm; reflexivity | exact Hs].
        -- destruct runs as [| x runs']; [constructor |].
           change (removelast (mkRun idx rc "Failed" (cancelled m') :: x :: runs'))
             with (mkRun idx rc "Failed" (cancelled m') :: removelast (x :: runs')).
           constructor; [exact Hm | exact Hn].
        -- split; [reflexivity |]. exists msg, m'. split; [reflexivity |]. split; [reflexivity | exact Hf].
Qed.

(** [_batch_worker]'s loop: the rows it dispatches are a prefix of the
    checked rows, numbered 1, 2, ... in order; each gets the status "Done",
    "Cancelled" or "Failed" from its [rc] (0, -1, other); only the last one
    can be "Cancelled"; and the [completed_count] of the closing
    "Batch finished: c/total done." line is the number of rows whose run
    returned 0, so it never exceeds [total]; there are at most as many
    runs as rows, and the k-th run is the k-th row started (while the
    manager was not cancelled) on the manager the previous run left, its
    [rc] and cancel flag being the ones that start returned. *)
Theorem batch_worker_count_and_statuses kc cb rows m :
  let '(runs, c, _) := batch_worker kc cb rows m in
  c = List.length (filter (fun r => r_rc r =? 0)%Z runs) /\
  (c <= List.length rows)%nat /\
  (List.length runs <= List.length rows)%nat /\
  map r_idx runs = seq 1 (List.length runs) /\
  Forall (fun r => r_status r = if (r_rc r =? 0)%Z then "Done" else if (r_rc r =? -1)%Z then "Cancelled" else "Failed") runs /\
  Forall (fun r => r_rc r <> (-1)%Z) (removelast runs) /\
  runs_follow_rows kc cb rows m runs.
Proof.
  unfold batch_worker. pose proof (batch_loop_inv kc cb rows 1 m 0) as H.
  destruct (batch_loop kc cb 1 rows m 0) as [[runs c] mf].
  destruct H as [Hc [Hi [Hl [Hs [Hn Hf]]]]]. simpl in Hc.
  pose proof (filter_length_le (fun r => r_rc r =? 0)%Z runs).
  refine (conj Hc (conj _ (conj Hl (conj Hi (conj Hs (conj Hn Hf)))))). lia.
Qed.

End BatchLoopFacts.

Module PlLineFacts.

Import Py PyStr PlLine.

Lemma split_go_free c0 sep' s :
  NtPath.none_of (fun c => Ascii.eqb c c0) s = true ->
  forall fuel acc, split_go fuel (String c0 sep') s acc = [(acc ++ s)%string].
Proof.
  induction s as [| c s IH]; intros Hs fuel acc; destruct fuel as [| f]; cbn [split_go].
  - reflexivity.
  - cbn [startswith]. rewrite PercFacts.append_empty_r. reflexivity.
  - reflexivity.
  - cbn [NtPath.none_of] in Hs. apply andb_true_iff in Hs as [Hc Hs].
    cbn [startswith]. rewrite Ascii.eqb_sym. apply negb_true_iff in Hc. rewrite Hc. cbn [andb].
    rewrite IH by exact Hs. rewrite PathFacts.sapp_assoc. reflexivity.
Qed.

Lemma split_go_skip c0 sep' pre :
  NtPath.none_of (fun c => Ascii.eqb c c0) pre = true ->
  forall s fuel acc,
  split_go (String.length pre + fuel) (String c0 sep') (pre ++ s) acc
  = split_go fuel (String c0 sep') s (acc ++ pre).
Proof.
  induction pre as [| c pre IH]; intros Hp s fuel acc.
  - cbn. rewrite PercFacts.append_empty_r. reflexivity.
  - cbn [NtPath.none_of] in Hp. apply andb_true_iff in Hp as [Hc Hp].
    cbn [String.length Nat.add split_go append startswith].
    rewrite Ascii.eqb_sym. apply negb_true_iff in Hc. rewrite Hc. cbn [andb].
    rewrite IH by exact Hp. rewrite PathFacts.sapp_assoc. reflexivity.
Qed.

Lemma startswith_app p s : startswith (p ++ s) p = true.
Proof. induction p as [| c p IH]; cbn; [destruct s; reflexivity | rewrite Ascii.eqb_refl; exact IH]. Qed.

Lemma split_go_at sep s fuel acc :
  split_go (S fuel) sep (sep ++ s) acc = acc :: split_go fuel sep s "".
Proof. cbn [split_go]. rewrite startswith_app, PercFacts.drop_app_length. reflexivity. Qed.

Lemma split_once pre c0 sep' post :
  NtPath.none_of (fun c => Ascii.eqb c c0) pre = true ->
  NtPath.none_of (fun c => Ascii.eqb c c0) post = true ->
  split (String c0 sep') (pre ++ String c0 sep' ++ post) = [pre; post].
Proof.
  intros Hpre Hpost. unfold split.
  rewrite PercFacts.length_app.
  replace (S (String.length pre + String.length (String c0 sep' ++ post)))
    with (String.length pre + S (String.length (String c0 sep' ++ post)))%nat by lia.
  rewrite (split_go_skip c0 sep' pre Hpre).
  rewrite (split_go_at (String c0 sep') post).
  rewrite (split_go_free c0 sep' post Hpost). reflexivity.
Qed.

Lemma digit_char c :
  Perc.is_digit c = true ->
  is_space c = false /\ Ascii.eqb c "D"%char = false /\ Ascii.eqb c "o"%char = false /\
  Ascii.eqb c "-"%char = false /\ Ascii.eqb c "+"%char = false.
Proof.
  intros H. unfold Perc.is_digit in H. apply andb_true_iff in H as [H1 H2].
  apply Nat.leb_le in H1. apply Nat.leb_le in H2.
  repeat split.
  - unfold is_space. apply orb_false_iff. split; apply andb_false_iff;
      right; apply Nat.leb_gt; lia.
  - destruct (Ascii.eqb_spec c "D"%char) as [-> | _]; [cbn in H1, H2; lia | reflexivity].
  - destruct (Ascii.eqb_spec c "o"%char) as [-> | _]; [cbn in H1, H2; lia | reflexivity].
  - destruct (Ascii.eqb_spec c "-"%char) as [-> | _]; [cbn in H1, H2; lia | reflexivity].
  - destruct (Ascii.eqb_spec c "+"%char) as [-> | _]; [cbn in H1, H2; lia | reflexivity].
Qed.

Lemma space_char c :
  is_space c = true -> Ascii.eqb c "D"%char = false /\ Ascii.eqb c "o"%char = false.
Proof.
  intros H. split.
  - destruct (Ascii.eqb_spec c "D"%char) as [-> | _]; [discriminate | reflexivity].
  - destruct (Ascii.eqb_spec c "o"%char) as [-> | _]; [discriminate | reflexivity].
Qed.

Lemma digits_none_of (f : ascii -> bool) s :
  (forall c, Perc.is_digit c = true -> f c = false) ->
  Perc.all_digits s = true -> NtPath.none_of f s = true.
Proof.
  intros Hf. induction s as [| c s IH]; cbn; [reflexivity |].
  intros H. apply andb_true_iff in H as [H1 H2]. rewrite Hf by exact H1. cbn. auto.
Qed.

Lemma spaces_none_of (f : ascii -> bool) s :
  (forall c, is_space c = true -> f c = false) ->
  NtPath.none_of (fun c => negb (is_space c)) s = true -> NtPath.none_of f s = true.
Proof.
  intros Hf. induction s as [| c s IH]; cbn; [reflexivity |].
  intros H. apply andb_true_iff in H as [H1 H2]. rewrite negb_involutive in H1.
  rewrite Hf by exact H1. cbn. auto.
Qed.

Lemma digits_us_digits s acc :
  Perc.all_digits s = true -> digits_us s acc false = Some (Perc.digits_val_acc acc s).
Proof.
  revert acc. induction s as [| c s IH]; intros acc H; cbn; [reflexivity |].
  cbn in H. apply andb_true_iff in H as [H1 H2]. rewrite H1. apply IH, H2.
Qed.

Lemma py_int_digits s :
  s <> "" -> Perc.all_digits s = true -> py_int s = Some (Perc.digits_val_acc 0 s).
Proof.
  intros Hne H. destruct s as [| c s]; [congruence |].
  cbn in H. apply andb_true_iff in H as [H1 H2].
  destruct (digit_char c H1) as [_ [_ [_ [Hm Hp]]]].
  unfold py_int. rewrite Hm, Hp. cbv iota beta. rewrite H1.
  rewrite digits_us_digits by exact H2. reflexivity.
Qed.

Lemma strip_digits_space d :
  d <> "" -> Perc.all_digits d = true ->
  strip (d ++ " ") = d /\ strip (" " ++ d) = d.
Proof.
  intros Hne H.
  assert (Hns : NtPath.none_of is_space d = true)
    by (apply digits_none_of; [intros c Hc; apply (digit_char c Hc) | exact H]).
  destruct d as [| c d']; [congruence |].
  assert (Hc : is_space c = false).
  { cbn in H. apply andb_true_iff in H as [H1 _]. apply (digit_char c H1). }
  split; unfold strip.
  - change (String c d' ++ " ")%string with (String c (d' ++ " ")).
    rewrite StripFacts.lstrip_nonspace_head by exact Hc.
    change (String c (d' ++ " ")) with (String c d' ++ " ")%string.
    rewrite DestFacts.rstrip_app_spaces by reflexivity.
    apply StripFacts.rstrip_no_space, Hns.
  - change (lstrip (" " ++ String c d')%string) with (lstrip (String c d')).
    rewrite StripFacts.lstrip_nonspace_head by exact Hc.
    apply StripFacts.rstrip_no_space, Hns.
Qed.

(** The playlist callback reads yt-dlp's counter line
    "[download] Downloading video X of Y" (with its line end): the current
    item becomes X and the total Y, whatever they were. *)
Theorem playlist_counter_line d1 d2 eol st :
  d1 <> "" -> d2 <> "" -> Perc.all_digits d1 = true -> Perc.all_digits d2 = true ->
  NtPath.none_of (fun c => negb (is_space c)) eol = true ->
  fst (pl_line_cb st ("[download] Downloading video " ++ d1 ++ " of " ++ d2 ++ eol))
  = mkPl (Perc.digits_val_acc 0 d1) (Perc.digits_val_acc 0 d2).
Proof.
  intros Hn1 Hn2 Ha1 Ha2 Heol.
  assert (HD : forall s, Perc.all_digits s = true ->
            NtPath.none_of (fun c => Ascii.eqb c "D"%char) s = true /\
            NtPath.none_of (fun c => Ascii.eqb c "o"%char) s = true).
  { intros s Hs. split; apply digits_none_of; auto; intros c Hc; apply (digit_char c Hc). }
  assert (HE : NtPath.none_of (fun c => Ascii.eqb c "D"%char) eol = true)
    by (apply spaces_none_of; [intros c Hc; apply (space_char c Hc) | exact Heol]).
  destruct (HD d1 Ha1) as [HD1 Ho1]. destruct (HD d2 Ha2) as [HD2 Ho2].
  set (line := ("[download] Downloading video " ++ d1 ++ " of " ++ d2 ++ eol)%string).
  set (rest := (" " ++ d1 ++ " of " ++ d2 ++ eol)%string).
  unfold pl_line_cb, count_update. cbv zeta. cbn [fst].
  assert (Hc1 : contains "Downloading video" line = true) by reflexivity.
  assert (Hc2 : contains "of" line = true).
  { assert (E : line = (("[download] Downloading video " ++ d1 ++ " ") ++ ("of " ++ d2 ++ eol))%string)
      by (unfold line; rewrite !PathFacts.sapp_assoc; reflexivity).
    rewrite E. apply MetaFacts.contains_app_r. reflexivity. }
  rewrite Hc1, Hc2. cbn [andb].
  assert (Hs1 : split "Downloading video" line = ["[download] "; rest]).
  { change line with ("[download] " ++ String "D" "ownloading video" ++ rest)%string.
    apply split_once; [reflexivity |].
    unfold rest. cbn [NtPath.none_of append]. change (negb (Ascii.eqb " " "D")) with true.
    cbn [andb]. apply PathFacts.none_of_app; [exact HD1 |].
    cbn [NtPath.none_of append]. change (negb (Ascii.eqb " " "D")) with true.
    change (negb (Ascii.eqb "o" "D")) with true. change (negb (Ascii.eqb "f" "D")) with true.
    cbn [andb]. apply PathFacts.none_of_app; assumption. }
  rewrite Hs1. cbn [nth_error].
  assert (Hst : strip rest = (d1 ++ " of " ++ d2)%string).
  { destruct d1 as [| c d1']; [congruence |].
    assert (Hc : is_space c = false).
    { cbn in Ha1. apply andb_true_iff in Ha1 as [H1 _]. apply (digit_char c H1). }
    unfold strip, rest. change (lstrip (" " ++ String c d1' ++ " of " ++ d2 ++ eol)%string)
      with (lstrip (String c (d1' ++ " of " ++ d2 ++ eol))).
    rewrite StripFacts.lstrip_nonspace_head by exact Hc.
    change (String c (d1' ++ " of " ++ d2 ++ eol)) with (String c d1' ++ " of " ++ d2 ++ eol)%string.
    replace (String c d1' ++ " of " ++ d2 ++ eol)%string
      with (((String c d1' ++ " of ") ++ d2) ++ eol)%string by (rewrite !PathFacts.sapp_assoc; reflexivity).
    rewrite DestFacts.rstrip_app_spaces by exact Heol.
    assert (Hr2 : rstrip d2 = d2)
      by (apply StripFacts.rstrip_no_space, digits_none_of; [intros c' Hc'; apply (digit_char c' Hc') | exact Ha2]).
    rewrite DestFacts.rstrip_app_r by (rewrite Hr2; exact Hn2).
    rewrite Hr2, PathFacts.sapp_assoc. reflexivity. }
  rewrite Hst.
  assert (Hs2 : split "of" (d1 ++ " of " ++ d2) = [(d1 ++ " ")%string; (" " ++ d2)%string]).
  { replace (d1 ++ " of " ++ d2)%string with ((d1 ++ " ") ++ String "o" "f" ++ " " ++ d2)%string
      by (rewrite PathFacts.sapp_assoc; reflexivity).
    apply split_once.
    - apply PathFacts.none_of_app; [exact Ho1 | reflexivity].
    - cbn [append NtPath.none_of]. change (negb (Ascii.eqb " " "o")) with true. cbn [andb]. exact Ho2. }
  rewrite Hs2. cbn [nth_error].
  destruct (strip_digits_space d1 Hn1 Ha1) as [E1 _].
  destruct (strip_digits_space d2 Hn2 Ha2) as [_ E2].
  rewrite E1, E2, (py_int_digits d1 Hn1 Ha1), (py_int_digits d2 Hn2 Ha2). reflexivity.
Qed.

(** The playlist callback on "[download] Destination: <dir>/<stem>.<e>"
    (with its line end, and no counter text in it) keeps the counters and
    shows "[current/total] <stem>" as the playlist title. *)
Theorem playlist_destination_title st dir c s' e eol :
  c <> "."%char -> NtPath.none_of NtPath.is_sep (String c s') = true ->
  NtPath.none_of (fun c => Ascii.eqb c "."%char) e = true ->
  NtPath.none_of NtPath.is_sep e = true ->
  rstrip (String "." e) = String "." e ->
  NtPath.none_of (fun d => negb (is_space d)) eol = true ->
  let line := ("[download] Destination: " ++ dir ++ "/" ++ String c s' ++ String "." e ++ eol)%string in
  contains "Downloading video" line = false ->
  exists rest, pl_line_cb st line =
    (st, PlTitle ("[" ++ z_str (cur_item st) ++ "/" ++ z_str (tot_items st) ++ "] " ++ String c s')
         :: rest).
Proof.
  intros Hc Hs He Hes Hr Heol line Hdv.
  destruct (DestFacts.dest_fname_line dir c s' (String "." e) eol Hr ltac:(discriminate) Heol)
    as [x' Hd].
  destruct (DestFacts.ext_and_title x' c s' e Hc Hs He Hes) as [_ Ht].
  unfold pl_line_cb, count_update. cbv zeta.
  rewrite Hdv. cbn [andb].
  unfold line. rewrite DestFacts.contains_destination. rewrite Hd, Ht.
  eexists. reflexivity.
Qed.

Lemma playlist_counter_line_witness :
  fst (pl_line_cb (mkPl 1 1) ("[download] Downloading video " ++ "3" ++ " of " ++ "10" ++ String "010" ""))
  = mkPl 3 10.
Proof.
  apply playlist_counter_line; try reflexivity; discriminate.
Defined.

Lemma playlist_destination_title_witness :
  exists rest, pl_line_cb (mkPl 3 10)
    ("[download] Destination: " ++ "C:/x" ++ "/" ++ String "M" "y Song" ++ String "." "mp4" ++ String "010" "")
  = (mkPl 3 10, PlTitle "[3/10] My Song" :: rest).
Proof.
  destruct (playlist_destination_title (mkPl 3 10) "C:/x" "M" "y Song" "mp4" (String "010" ""))
    as [rest H]; try reflexivity; try discriminate.
  exists rest. exact H.
Defined.

End PlLineFacts.
